(** * Booking and FAQ engine of the Telegram support bot: model and proofs

    A shallow embedding of [src/bot.py] (slot model, Spanish date and time
    resolver, FAQ scorer, booking handlers) and the properties of its
    specification.

    Conventions of the embedding.
    - A Python [str] is a list of Unicode code points.  The character
      tables ([isspace], [\d], [\w], [str.lower]) are those of CPython for
      U+0000..U+00FF (Basic Latin and Latin-1 Supplement, which covers
      Spanish text); the complete [isspace] table is given, digits of other
      scripts are not modelled, and code points above U+00FF are taken as
      caseless letters.
    - A [date] is its proleptic Gregorian ordinal ([date.toordinal()]).
    - A [datetime] is the number of microseconds of wall-clock time in the
      business timezone since the start of ordinal day 0.  The configured
      zone (default America/Caracas) has a fixed offset, so order on wall
      clock times is order on instants and [ensure_tz] is the identity on
      this representation; the appointments table stores the same wall
      clock values.
    - The database tables are explicit values threaded through the
      handlers; [db.commit()] is taken to succeed. *)

From Stdlib Require Import ZArith NArith QArith Lia Bool List String Ascii Sorted Permutation.
From stdpp Require Import base option list gmap.
Import ListNotations.

Local Open Scope Z_scope.

(** ** Text *)

Definition codepoint := N.
Definition str := list N.

Definition bytes_of_string (s : string) : list N :=
  List.map N_of_ascii (list_ascii_of_string s).

(** UTF-8 decoding of a literal written in this file. *)
Fixpoint utf8_decode (bs : list N) : str :=
  match bs with
  | [] => []
  | b0 :: r0 =>
    if (b0 <? 128)%N then b0 :: utf8_decode r0
    else match r0 with
    | [] => [b0]
    | b1 :: r1 =>
      if (b0 <? 224)%N then
        (N.lor (N.shiftl (N.land b0 31) 6) (N.land b1 63)) :: utf8_decode r1
      else match r1 with
      | [] => [b0; b1]
      | b2 :: r2 =>
        if (b0 <? 240)%N then
          (N.lor (N.shiftl (N.land b0 15) 12)
             (N.lor (N.shiftl (N.land b1 63) 6) (N.land b2 63))) :: utf8_decode r2
        else match r2 with
        | [] => [b0; b1; b2]
        | b3 :: r3 =>
          (N.lor (N.shiftl (N.land b0 7) 18)
             (N.lor (N.shiftl (N.land b1 63) 12)
                (N.lor (N.shiftl (N.land b2 63) 6) (N.land b3 63)))) :: utf8_decode r3
        end
      end
    end
  end.

(** [py "..."] is the Python string written between the quotes. *)
Definition py (s : string) : str := utf8_decode (bytes_of_string s).

Definition in_range (lo hi c : N) : bool := ((lo <=? c) && (c <=? hi))%N.

(** [str.isspace] on one code point, which is also [\s] of [re]. *)
Definition is_space (c : codepoint) : bool :=
  in_range 9 13 c || in_range 28 32 c || (c =? 133)%N || (c =? 160)%N
  || (c =? 5760)%N || in_range 8192 8202 c || (c =? 8232)%N || (c =? 8233)%N
  || (c =? 8239)%N || (c =? 8287)%N || (c =? 12288)%N.

(** [\d] of [re]: the ASCII digits. *)
Definition is_digit (c : codepoint) : bool := in_range 48 57 c.

Definition is_upper_ascii (c : codepoint) : bool := in_range 65 90 c.
Definition is_lower_ascii (c : codepoint) : bool := in_range 97 122 c.
Definition is_alpha_ascii (c : codepoint) : bool := is_upper_ascii c || is_lower_ascii c.

(** [\w] of [re]: alphanumeric or underscore. *)
Definition is_word (c : codepoint) : bool :=
  is_alpha_ascii c || is_digit c || (c =? 95)%N
  || (c =? 170)%N || (c =? 178)%N || (c =? 179)%N || (c =? 181)%N
  || (c =? 185)%N || (c =? 186)%N || in_range 188 190 c
  || in_range 192 214 c || in_range 216 246 c || (248 <=? c)%N.

(** [str.lower] on one code point. *)
Definition lower_cp (c : codepoint) : codepoint :=
  if is_upper_ascii c then (c + 32)%N
  else if in_range 192 222 c && negb (c =? 215)%N then (c + 32)%N
  else c.

Definition lower (s : str) : str := List.map lower_cp s.

Definition str_eqb (a b : str) : bool := bool_decide (a = b).

Fixpoint startswith (p s : str) : bool :=
  match p, s with
  | [], _ => true
  | _ :: _, [] => false
  | a :: p', b :: s' => (a =? b)%N && startswith p' s'
  end.

(** [needle in hay] on strings. *)
Fixpoint contains (needle hay : str) : bool :=
  startswith needle hay ||
  match hay with
  | [] => false
  | _ :: hay' => contains needle hay'
  end.

(** [any(w in t for w in ws)]. *)
Definition any_in (ws : list str) (t : str) : bool :=
  existsb (fun w => contains w t) ws.

Fixpoint lstrip (s : str) : str :=
  match s with
  | [] => []
  | c :: s' => if is_space c then lstrip s' else s
  end.

(** [s.strip()]. *)
Definition strip (s : str) : str := rev (lstrip (rev (lstrip s))).

(** [s.replace(a, b)] for one-character [a] and [b]. *)
Definition replace_cp (a b : codepoint) (s : str) : str :=
  List.map (fun c => if (c =? a)%N then b else c) s.

Fixpoint split_from (cur : str) (s : str) : list str :=
  match s with
  | [] => match cur with [] => [] | _ => [rev cur] end
  | c :: s' =>
    if is_space c then
      match cur with
      | [] => split_from [] s'
      | _ => rev cur :: split_from [] s'
      end
    else split_from (c :: cur) s'
  end.

(** [s.split()]: the maximal runs of non-space characters. *)
Definition split (s : str) : list str := split_from [] s.

(** ** Dates and times *)

Definition date := Z.
Definition datetime := Z.

Definition usec_per_minute : Z := 60000000.
Definition usec_per_hour : Z := 60 * usec_per_minute.
Definition usec_per_day : Z := 24 * usec_per_hour.

(** [timedelta(minutes=m)] and [timedelta(days=d)]; a date plus
    [timedelta(days=d)] is the ordinal plus [d]. *)
Definition timedelta_minutes (m : Z) : Z := m * usec_per_minute.
Definition timedelta_days (d : Z) : Z := d * usec_per_day.

(** [dtime.min] and [dtime.max] (23:59:59.999999) as microseconds of the day. *)
Definition dtime_min : Z := 0.
Definition dtime_max : Z := usec_per_day - 1.

(** [dtime(hour, minute)]: raises [ValueError] (here [None]) unless
    [0 <= hour <= 23] and [0 <= minute <= 59]. *)
Definition dtime (hour minute : Z) : option Z :=
  if (0 <=? hour) && (hour <=? 23) && (0 <=? minute) && (minute <=? 59)
  then Some (hour * usec_per_hour + minute * usec_per_minute)
  else None.

(** [datetime.combine(d, t)], localized in the business zone. *)
Definition combine (d : date) (t : Z) : datetime := d * usec_per_day + t.

(** [dt.date()], [dt.hour], [dt.minute]. *)
Definition date_of (dt : datetime) : date := dt / usec_per_day.
Definition hour_of (dt : datetime) : Z := (dt mod usec_per_day) / usec_per_hour.
Definition minute_of (dt : datetime) : Z := ((dt mod usec_per_day) / usec_per_minute) mod 60.

(** [ensure_tz]: a naive value is read as business-zone wall clock, an
    aware one is converted to it. *)
Definition ensure_tz (dt : datetime) : datetime := dt.

(** [date.weekday()]: Monday is 0. *)
Definition weekday (d : date) : Z := (d + 6) mod 7.

(** [date(y, m, d).toordinal()], as CPython's [_ymd2ord]. *)
Definition is_leap (y : Z) : bool :=
  (y mod 4 =? 0) && (negb (y mod 100 =? 0) || (y mod 400 =? 0)).

Definition days_before_year (y : Z) : Z :=
  let y1 := y - 1 in y1 * 365 + y1 / 4 - y1 / 100 + y1 / 400.

Definition days_before_month (y m : Z) : Z :=
  nth (Z.to_nat m) [0; 0; 31; 59; 90; 120; 151; 181; 212; 243; 273; 304; 334] 0
  + (if (2 <? m) && is_leap y then 1 else 0).

Definition ymd (y m d : Z) : date := days_before_year y + days_before_month y m + d.

(** ** Configuration and tables *)

Record Config := {
  BUSINESS_HOURS_START : Z;
  BUSINESS_HOURS_END : Z
}.

(** [dtime(hour=h)] raises [ValueError] outside 0..23, so the process only
    produces slots under a configuration with both hours in that range. *)
Definition valid_hours (cfg : Config) : Prop :=
  0 <= BUSINESS_HOURS_START cfg <= 23 /\ 0 <= BUSINESS_HOURS_END cfg <= 23.

Inductive AppointmentStatus := PENDING | CONFIRMED | COMPLETED | CANCELLED.

Definition is_cancelled (s : AppointmentStatus) : bool :=
  match s with CANCELLED => true | _ => false end.

(** A row of the appointments table. *)
Record Appointment := {
  user_id : Z;
  appointment_date : datetime;
  duration_minutes : Z;
  status : AppointmentStatus
}.

(** A slot dictionary with its keys ['start'] and ['end']. *)
Record Slot := {
  slot_start : datetime;
  slot_end : datetime
}.

(** ** Time/Slot model *)

(** The [while cur + step <= end_dt] loop of [daterange_slots]; [fuel]
    bounds the number of iterations. *)
Fixpoint daterange_loop (fuel : nat) (cur step end_dt : Z) : list Slot :=
  match fuel with
  | O => []
  | S fuel' =>
    if cur + step <=? end_dt
    then {| slot_start := cur; slot_end := cur + step |}
         :: daterange_loop fuel' (cur + step) step end_dt
    else []
  end.

(** 48 half-hours fit in a day, so the loop always leaves by its test. *)
Definition daterange_slots (cfg : Config) (date_obj : date) : list Slot :=
  let start_dt := combine date_obj (BUSINESS_HOURS_START cfg * usec_per_hour) in
  let end_dt := combine date_obj (BUSINESS_HOURS_END cfg * usec_per_hour) in
  let step := timedelta_minutes 30 in
  daterange_loop (Z.to_nat ((end_dt - start_dt) / step) + 1) start_dt step end_dt.

Definition a_start (a : Appointment) : datetime := ensure_tz (appointment_date a).
Definition a_end (a : Appointment) : datetime :=
  a_start a + timedelta_minutes (duration_minutes a).

(** The query shared by [is_slot_available] and
    [get_available_slots_from_db]: the rows that start within the day and
    are not cancelled, in table order. *)
Definition appts_of_day (appts : list Appointment) (day : date) : list Appointment :=
  let day_start := combine day dtime_min in
  let day_end := combine day dtime_max in
  List.filter (fun a => (day_start <=? appointment_date a)
                        && (appointment_date a <=? day_end)
                        && negb (is_cancelled (status a))) appts.

(** The [for a in appts] loop with its early exit: [true] when some row
    overlaps [start_dt, end_dt). *)
Fixpoint overlaps_some (rows : list Appointment) (start_dt end_dt : datetime) : bool :=
  match rows with
  | [] => false
  | a :: rows' =>
    if (start_dt <? a_end a) && (a_start a <? end_dt) then true
    else overlaps_some rows' start_dt end_dt
  end.

Definition is_slot_available (appts : list Appointment) (start_dt end_dt : datetime) : bool :=
  let start_dt := ensure_tz start_dt in
  let end_dt := ensure_tz end_dt in
  let day := date_of start_dt in
  negb (overlaps_some (appts_of_day appts day) start_dt end_dt).

Fixpoint available_loop (rows : list Appointment) (all_slots : list Slot) : list Slot :=
  match all_slots with
  | [] => []
  | slot :: rest =>
    if overlaps_some rows (slot_start slot) (slot_end slot)
    then available_loop rows rest
    else slot :: available_loop rows rest
  end.

Definition get_available_slots_from_db (cfg : Config) (appts : list Appointment)
    (date_obj : date) : list Slot :=
  available_loop (appts_of_day appts date_obj) (daterange_slots cfg date_obj).

(** ** Regular expressions

    The fragment of Python's [re] that the source uses, with its
    backtracking semantics: the leftmost match, greedy repetition, the
    first alternative that leads to a match.  A repetition ranges over a
    one-character class, as every repetition of the source does.  The
    matcher runs on the rest of the text, knows the character before it
    (for [\b] and [^]) and collects the text of the groups in order. *)

Inductive regex :=
| Chr (p : codepoint -> bool)
| Rep (p : codepoint -> bool) (lo : nat) (hi : option nat)
| Seq (r1 r2 : regex)
| Alt (r1 r2 : regex)
| Group (r : regex)
| WordB
| Bol
| Eol.

Definition kont := option codepoint -> str -> list str -> option (list str).

Definition orelse {A} (x y : option A) : option A :=
  match x with Some _ => x | None => y end.

Fixpoint rep_match (p : codepoint -> bool) (lo : nat) (hi : option nat)
    (prev : option codepoint) (rest : str) (caps : list str) (k : kont)
    {struct rest} : option (list str) :=
  let stop := match lo with O => k prev rest caps | S _ => None end in
  match hi with
  | Some O => stop
  | _ =>
    match rest with
    | c :: rest' =>
      if p c
      then orelse (rep_match p (Nat.pred lo) (option_map Nat.pred hi)
                     (Some c) rest' caps k) stop
      else stop
    | [] => stop
    end
  end.

Definition is_word_opt (c : option codepoint) : bool :=
  match c with Some c => is_word c | None => false end.

(** [\b]: exactly one side is a word character. *)
Definition at_boundary (prev : option codepoint) (rest : str) : bool :=
  xorb (is_word_opt prev) (is_word_opt (head rest)).

Fixpoint rmatch (r : regex) (prev : option codepoint) (rest : str)
    (caps : list str) (k : kont) : option (list str) :=
  match r with
  | Chr p =>
    match rest with
    | c :: rest' => if p c then k (Some c) rest' caps else None
    | [] => None
    end
  | Rep p lo hi => rep_match p lo hi prev rest caps k
  | Seq r1 r2 =>
    rmatch r1 prev rest caps (fun prev' rest' caps' => rmatch r2 prev' rest' caps' k)
  | Alt r1 r2 => orelse (rmatch r1 prev rest caps k) (rmatch r2 prev rest caps k)
  | Group r1 =>
    rmatch r1 prev rest caps (fun prev' rest' caps' =>
      k prev' rest' (caps' ++ [take (length rest - length rest') rest]))
  | WordB => if at_boundary prev rest then k prev rest caps else None
  | Bol => match prev with None => k prev rest caps | Some _ => None end
  | Eol =>
    match rest with
    | [] => k prev rest caps
    | [c] => if (c =? 10)%N then k prev rest caps else None
    | _ => None
    end
  end.

Definition accept : kont := fun _ _ caps => Some caps.

(** [re.match(r, s)]: the groups of a match at the start of [s]. *)
Definition re_match (r : regex) (s : str) : option (list str) :=
  rmatch r None s [] accept.

Fixpoint search_from (r : regex) (prev : option codepoint) (rest : str)
    : option (list str) :=
  orelse (rmatch r prev rest [] accept)
    match rest with
    | [] => None
    | c :: rest' => search_from r (Some c) rest'
    end.

(** [re.search(r, s)]: the groups of the leftmost match. *)
Definition re_search (r : regex) (s : str) : option (list str) :=
  search_from r None s.

Declare Scope regex_scope.
Delimit Scope regex_scope with re.
Infix "·" := Seq (at level 41, right associativity) : regex_scope.

Definition lit1 (c : string) : regex :=
  Chr (fun x => match py c with [y] => (x =? y)%N | _ => false end).

Definition one_of (cs : string) : codepoint -> bool :=
  fun x => existsb (N.eqb x) (py cs).

(** [int(s)] on a run of ASCII digits. *)
Definition int_of (s : str) : Z :=
  fold_left (fun acc c => acc * 10 + (Z.of_N c - 48)) s 0.

(** ** Spanish date and time resolver *)

Inductive AmPm := AM | PM.

(** [\b(\d{1,2}):(\d{2})\b] *)
Definition re_hhmm : regex :=
  (WordB · Group (Rep is_digit 1 (Some 2%nat)) · lit1 ":"
   · Group (Rep is_digit 2 (Some 2%nat)) · WordB)%re.

(** [a\s+l[ao]s?\s+(\d{1,2})\b] *)
Definition re_a_las : regex :=
  (lit1 "a" · Rep is_space 1 None · lit1 "l" · Chr (one_of "ao")
   · Rep (one_of "s") 0 (Some 1%nat) · Rep is_space 1 None
   · Group (Rep is_digit 1 (Some 2%nat)) · WordB)%re.

(** [\b(\d{1,2})\s*(am|pm)\b] *)
Definition re_n_ampm : regex :=
  (WordB · Group (Rep is_digit 1 (Some 2%nat)) · Rep is_space 0 None
   · Group (Alt (lit1 "a" · lit1 "m") (lit1 "p" · lit1 "m")) · WordB)%re.

(** The cue that [parse_spanish_time] reads off the whole text: [pm] wins
    over [am] when both occur. *)
Definition ampm_cue (t : str) : option AmPm :=
  let ampm :=
    if contains (py "de la tarde") t || contains (py "de la noche") t
       || contains (py "pm") t
    then Some PM else None in
  if contains (py "de la mañana") t || contains (py "de la manana") t
     || contains (py "am") t
  then orelse ampm (Some AM)
  else ampm.

Definition parse_spanish_time (text : str) : option (Z * Z) :=
  let t := lower text in
  let first :=
    match re_search re_hhmm t with
    | Some [g1; g2] =>
      let h := int_of g1 in
      let mi := int_of g2 in
      if (0 <=? h) && (h <=? 23) && (0 <=? mi) && (mi <=? 59)
      then Some (h, mi) else None
    | _ => None
    end in
  match first with
  | Some r => Some r
  | None =>
    let ampm := ampm_cue t in
    let second :=
      match re_search re_a_las t with
      | Some [g1] =>
        let h := int_of g1 in
        let mi := 0 in
        let h := match ampm with Some PM => if h <? 12 then h + 12 else h | _ => h end in
        let h := match ampm with Some AM => if h =? 12 then 0 else h | _ => h end in
        if (0 <=? h) && (h <=? 23) then Some (h, mi) else None
      | _ => None
      end in
    match second with
    | Some r => Some r
    | None =>
      match re_search re_n_ampm t with
      | Some [g1; g2] =>
        let h := int_of g1 in
        let mi := 0 in
        let h := if str_eqb g2 (py "pm") && (h <? 12) then h + 12 else h in
        let h := if str_eqb g2 (py "am") && (h =? 12) then 0 else h in
        Some (h, mi)
      | _ => None
      end
    end
  end.

(** The [weekdays] dictionary, in its insertion order. *)
Definition weekdays : list (str * Z) :=
  [ (py "lunes", 0); (py "martes", 1); (py "miércoles", 2); (py "miercoles", 2);
    (py "jueves", 3); (py "viernes", 4); (py "sábado", 5); (py "sabado", 5);
    (py "domingo", 6) ].

(** The [for name, idx in weekdays.items()] loop. *)
Fixpoint weekday_loop (items : list (str * Z)) (t : str) (now : date) : option date :=
  match items with
  | [] => None
  | (name, idx) :: items' =>
    if contains name t then
      let today_idx := weekday now in
      let delta := (idx - today_idx) mod 7 in
      let delta := if delta =? 0 then 7 else delta in
      Some (now + delta)
    else weekday_loop items' t now
  end.

(** [now] is [get_tznow().date()]. *)
Definition parse_spanish_date (now : date) (text : str) : option date :=
  match text with
  | [] => None
  | _ =>
    let t := lower text in
    if contains (py "pasado mañana") t || contains (py "pasado manana") t
    then Some (now + 2)
    else if contains (py "mañana") t || contains (py "manana") t
    then Some (now + 1)
    else if contains (py "hoy") t
    then Some now
    else weekday_loop weekdays t now
  end.

(** ** Choosing a slot for a requested time *)

Inductive exn :=
| ValueError
| Exception (msg : str).

(** The value a call returns, or the exception it raises. *)
Inductive result (A : Type) :=
| Return (a : A)
| Raise (e : exn).
Arguments Return {A} a.
Arguments Raise {A} e.

(** [l.sort(key=lambda s: s['start'])]: a stable sort. *)
Fixpoint insert_by_start (s : Slot) (l : list Slot) : list Slot :=
  match l with
  | [] => [s]
  | x :: l' =>
    if slot_start s <=? slot_start x then s :: l
    else x :: insert_by_start s l'
  end.

Fixpoint sort_by_start (l : list Slot) : list Slot :=
  match l with
  | [] => []
  | x :: l' => insert_by_start x (sort_by_start l')
  end.

Definition pick_best_slot_for_datetime (cfg : Config) (appts : list Appointment)
    (target_date : date) (hour minute : Z) : result (option Slot) :=
  let slots := get_available_slots_from_db cfg appts target_date in
  match slots with
  | [] => Return None
  | _ :: _ =>
    match dtime hour minute with
    | None => Raise ValueError
    | Some tm =>
      let target_dt := ensure_tz (combine target_date tm) in
      let exact := List.filter (fun s => (hour_of (slot_start s) =? hour)
                                    && (minute_of (slot_start s) =? minute)) slots in
      match exact with
      | e :: _ => Return (Some e)
      | [] =>
        let after := List.filter (fun s => target_dt <=? slot_start s) slots in
        match after with
        | _ :: _ => Return (head (sort_by_start after))
        | [] => Return (last (sort_by_start slots))
        end
      end
    end
  end.

(** ** E-mail format *)

(** [^[A-Za-z0-9._%+-]+@[A-Za-z0-9.-]+\.[A-Za-z]{2,}$] *)
Definition re_email : regex :=
  (Bol · Rep (fun c => is_alpha_ascii c || is_digit c || one_of "._%+-" c) 1 None
   · lit1 "@"
   · Rep (fun c => is_alpha_ascii c || is_digit c || one_of ".-" c) 1 None
   · lit1 "." · Rep is_alpha_ascii 2 None · Eol)%re.

Definition valid_email (email : str) : bool :=
  match email with
  | [] => false
  | _ => match re_match re_email (strip email) with Some _ => true | None => false end
  end.

(** ** FAQ relevance scorer *)

(** A row of the FAQ table. *)
Record FAQ := {
  faq_id : Z;
  question : str;
  answer : str;
  category : str;
  is_active : bool
}.

Section Scorer.

(** [SequenceMatcher(None, a, b).ratio()] of Python's [difflib], a
    similarity in [0, 1].  Its float is read as the rational it denotes
    and the arithmetic on scores is exact. *)
Variable ratio : str -> str -> Q.

Definition Qmax (x y : Q) : Q := if Qle_bool x y then y else x.

(** The tokens of the query: [{t for t in text.replace('\n', ' ').split() if len(t) > 2}]. *)
Definition query_tokens (text : str) : gset str :=
  list_to_set (List.filter (fun t => (2 <? length t)%nat) (split (replace_cp 10%N 32%N text))).

Definition faq_overlap (tokens : gset str) (f : FAQ) : nat :=
  let q_tokens : gset str := list_to_set (split (lower (question f))) in
  let a_tokens : gset str := list_to_set (split (lower (answer f))) in
  (size (tokens ∩ q_tokens) * 2 + size (tokens ∩ a_tokens))%nat.

Definition faq_score (text : str) (tokens : gset str) (f : FAQ) : Q :=
  let fuzzy_q := ratio text (lower (question f)) in
  let fuzzy_a := ratio text (lower (answer f)) in
  (inject_Z (Z.of_nat (faq_overlap tokens f)) + 3 * Qmax fuzzy_q fuzzy_a)%Q.

(** The [for f in faqs] loop with its running best. *)
Fixpoint faq_loop (text : str) (tokens : gset str) (faqs : list FAQ)
    (best : option FAQ) (best_score : Q) : option FAQ * Q :=
  match faqs with
  | [] => (best, best_score)
  | f :: faqs' =>
    let score := faq_score text tokens f in
    if negb (Qle_bool score best_score)
    then faq_loop text tokens faqs' (Some f) score
    else faq_loop text tokens faqs' best best_score
  end.

(** [faq_table] is the FAQ table; the query keeps its active rows. *)
Definition best_faq_answer (faq_table : list FAQ) (query_text : str) : option FAQ :=
  match query_text with
  | [] => None
  | _ =>
    let text := lower query_text in
    let tokens := query_tokens text in
    if bool_decide (tokens = ∅) then None
    else
      let faqs := List.filter is_active faq_table in
      let '(best, best_score) := faq_loop text tokens faqs None 0%Q in
      match best with
      | Some b =>
        if Qle_bool 3 best_score
           || Qle_bool (35 # 100) (ratio text (lower (question b)))
        then Some b else None
      | None => None
      end
  end.

End Scorer.

(** ** Intent predicates *)

Inductive Product := natural | juridica | renovacion | token | empresarial.

Inductive Smalltalk := Thanks | Okay | Greeting | Farewell.

(** The conversation states of the handler table. *)
Inductive ConvState :=
| START | HANDLE_MENU | SCHEDULE_APPOINTMENT | SELECT_DATE | SELECT_TIME
| CONFIRM_APPOINTMENT | HANDLE_FAQ | HANDLE_CONTACT | HANDLE_VOICE | COLLECT_EMAIL.

(** What a handler sends to the user, one constructor for each message of
    the source (named after its text). *)
Inductive Reply :=
| RPrice (p : option Product)       (* price of a product, or the summary of all prices *)
| RWasUseful                        (* "¿Fue útil esta información?" *)
| RSmalltalk (k : Smalltalk)
| RServices                         (* "Servicios disponibles ..." *)
| RRenewal                          (* "Renovación del Certificado Electrónico ..." *)
| RFaq (f : FAQ)                    (* the question and answer of a FAQ row *)
| RMoreHelp                         (* "¿Necesitas más ayuda?" *)
| RSupportBlurb                     (* "No tengo esa respuesta en este momento ..." *)
| RChooseOption                     (* "También puedes elegir una opción:" *)
| RNotUnderstood                    (* "No entendí tu solicitud ..." *)
| RSelectDate (dates : list date)   (* "Selecciona una fecha para tu cita:" and the date buttons *)
| RFaqCategories                    (* "Preguntas Frecuentes ..." *)
| RContact                          (* "Contacto ..." *)
| RAbout                            (* "Acerca de Authenology ..." *)
| RInvalidEmail                     (* "El correo no parece válido. ..." *)
| RUserNotFound                     (* "No pude encontrar tu usuario. Envía /start para reiniciar." *)
| RNoStagedTime                     (* "No tengo el horario de la cita. Por favor intenta agendar nuevamente." *)
| RSlotUnavailable                  (* "El horario seleccionado ya no está disponible. Intenta con otro horario." *)
| RConfirmed (t : datetime)         (* "¡Cita confirmada!" with the date and time *)
| RCancelled                        (* "Cita cancelada. No se ha agendado ninguna cita. ..." *)
| RErrorUserInfo                    (* "Error. No se pudo encontrar tu información de usuario. ..." *)
| RErrorNoDetails                   (* "Error. No se pudo obtener la información de la cita. ..." *)
| RAskEmail                         (* "Antes de confirmar, por favor escribe tu correo electrónico ..." *)
| RErrorNotSaved                    (* "Error. No se pudo agendar la cita. Por favor, inténtalo de
                                        nuevo más tarde o contáctanos para asistencia." *)
| RNotTranscribed.                  (* "Lo siento, no pude transcribir tu mensaje de voz. ..." *)

Definition pricing_answer (text : str) : option Reply :=
  match text with
  | [] => None
  | _ =>
    let t := lower text in
    let triggers := List.map py
      [ "precio"; "precios"; "coste"; "costo"; "vale"; "cuesta"; "tarifa";
        "tarifas"; "presupuesto"; "presupuestos"; "precio aproximado";
        "cuanto vale"; "cuánto vale"; "cuanto cuesta"; "cuánto cuesta" ]%string in
    if negb (any_in triggers t) then None
    else if contains (py "persona natural") t || contains (py "natural") t
    then Some (RPrice (Some natural))
    else if contains (py "persona juridica") t || contains (py "persona jurídica") t
            || contains (py "empresa") t || contains (py "juridica") t
            || contains (py "jurídica") t
    then Some (RPrice (Some juridica))
    else if contains (py "renovación") t || contains (py "renovacion") t
    then Some (RPrice (Some renovacion))
    else if contains (py "token") t || contains (py "dispositivo") t
    then Some (RPrice (Some token))
    else if contains (py "empresarial") t || contains (py "corporativo") t
            || contains (py "plan empresa") t
    then Some (RPrice (Some empresarial))
    else Some (RPrice None)
  end.

Definition smalltalk_answer (text : str) : option Reply :=
  match text with
  | [] => None
  | _ =>
    let t := strip (lower text) in
    let thanks := List.map py
      [ "gracias"; "muchas gracias"; "gracias!"; "gracias."; "gracias!!"; "grac" ]%string in
    let oks := List.map py
      [ "ok"; "okey"; "vale"; "listo"; "perfecto"; "entendido" ]%string in
    let greets := List.map py
      [ "hola"; "buenos dias"; "buenos días"; "buenas"; "buenas tardes";
        "buenas noches" ]%string in
    let byes := List.map py
      [ "adios"; "adiós"; "chao"; "hasta luego"; "nos vemos" ]%string in
    if any_in thanks t then Some (RSmalltalk Thanks)
    else if existsb (fun x => str_eqb x t || contains x t) oks then Some (RSmalltalk Okay)
    else if any_in greets t then Some (RSmalltalk Greeting)
    else if any_in byes t then Some (RSmalltalk Farewell)
    else None
  end.

Definition services_answer (text : str) : option Reply :=
  match text with
  | [] => None
  | _ =>
    let t := lower text in
    let cues := List.map py
      [ "servicio"; "servicios"; "api"; "sdk"; "integración"; "integracion";
        "empres"; "empresa"; "volumen" ]%string in
    if negb (any_in cues t) then None else Some RServices
  end.

Definition renewal_info_answer (text : str) : option Reply :=
  match text with
  | [] => None
  | _ =>
    let t := lower text in
    let cues := List.map py
      [ "renovar"; "renovación"; "renovacion"; "renove"; "renovarse" ]%string in
    if negb (any_in cues t) then None else Some RRenewal
  end.

(** ** Tables and conversation data *)

(** A row of the users table. *)
Record User := {
  id : Z;
  telegram_id : Z;
  first_name : str;
  email : option str
}.

Definition with_email (u : User) (e : str) : User :=
  {| id := id u; telegram_id := telegram_id u; first_name := first_name u;
     email := Some e |}.

(** [not user.email]: no address, or an empty one. *)
Definition no_email (u : User) : bool :=
  match email u with
  | None | Some [] => true
  | Some (_ :: _) => false
  end.

Inductive Source := from_text | from_voice.

(** A row of the user questions table. *)
Record UserQuestion := {
  uq_telegram_id : Z;
  question_text : str;
  source : Source
}.

(** The two databases: users (by their unique [telegram_id]) and
    appointments in one, FAQ rows and logged questions in the other. *)
Record DB := {
  users : gmap Z User;
  appointments : list Appointment;
  faqs : list FAQ;
  user_questions : list UserQuestion
}.

Definition set_users (db : DB) (us : gmap Z User) : DB :=
  {| users := us; appointments := appointments db; faqs := faqs db;
     user_questions := user_questions db |}.

Definition set_appointments (db : DB) (l : list Appointment) : DB :=
  {| users := users db; appointments := l; faqs := faqs db;
     user_questions := user_questions db |}.

Definition add_question (db : DB) (q : UserQuestion) : DB :=
  {| users := users db; appointments := appointments db; faqs := faqs db;
     user_questions := user_questions db ++ [q] |}.

(** [context.user_data], the scratch fields of one conversation. *)
Record UserData := {
  ud_appointment_date : option date;
  ud_appointment_time : option datetime;
  ud_await_email : bool;
  ud_current_state : option ConvState;
  ud_prev_state : option ConvState
}.

Definition set_await_email (ud : UserData) (b : bool) : UserData :=
  {| ud_appointment_date := ud_appointment_date ud;
     ud_appointment_time := ud_appointment_time ud;
     ud_await_email := b;
     ud_current_state := ud_current_state ud;
     ud_prev_state := ud_prev_state ud |}.

Definition set_current_state (ud : UserData) (st : ConvState) : UserData :=
  {| ud_appointment_date := ud_appointment_date ud;
     ud_appointment_time := ud_appointment_time ud;
     ud_await_email := ud_await_email ud;
     ud_current_state := Some st;
     ud_prev_state := ud_prev_state ud |}.

(** What a handler leaves behind: the tables, the scratch fields, the
    messages sent in order, and the state it returns. *)
Record Outcome := {
  o_db : DB;
  o_ud : UserData;
  o_replies : list Reply;
  o_next : ConvState
}.

Definition out (db : DB) (ud : UserData) (rs : list Reply) (st : ConvState) : Outcome :=
  {| o_db := db; o_ud := ud; o_replies := rs; o_next := st |}.

(** [Appointment(user_id=user.id, appointment_date=t, duration_minutes=30,
    status=AppointmentStatus.CONFIRMED)] *)
Definition new_appointment (u : User) (t : datetime) : Appointment :=
  {| user_id := id u; appointment_date := t; duration_minutes := 30;
     status := CONFIRMED |}.

(** ** Handlers *)

(** [now] is [get_tznow().date()]. *)
Definition schedule_appointment (now : date) (db : DB) (ud : UserData) : Outcome :=
  let available_dates := List.map (fun i => now + Z.of_nat i) (seq 1 14) in
  out db (set_current_state ud SELECT_DATE) [RSelectDate available_dates] SELECT_DATE.

Definition show_faq_categories (db : DB) (ud : UserData) : Outcome :=
  out db (set_current_state ud HANDLE_FAQ) [RFaqCategories] HANDLE_FAQ.

Definition show_contact_info (db : DB) (ud : UserData) : Outcome :=
  out db (set_current_state ud HANDLE_CONTACT) [RContact] HANDLE_CONTACT.

Definition show_about (db : DB) (ud : UserData) : Outcome :=
  out db ud [RAbout] HANDLE_MENU.

(** The handler of a text message in the collect-e-mail state. *)
Definition handle_email_input (db : DB) (ud : UserData) (sender : Z)
    (message_text : str) : Outcome :=
  let email := strip message_text in
  if negb (valid_email email) then out db ud [RInvalidEmail] COLLECT_EMAIL
  else
    match users db !! sender with
    | None => out db ud [RUserNotFound] HANDLE_MENU
    | Some user =>
      (* user.email = email; db.commit() *)
      let user := with_email user email in
      let db := set_users db (<[sender := user]> (users db)) in
      match ud_appointment_time ud with
      | None => out db ud [RNoStagedTime] HANDLE_MENU
      | Some appointment_time =>
        if negb (is_slot_available (appointments db) appointment_time
                   (appointment_time + timedelta_minutes 30))
        then out db ud [RSlotUnavailable] HANDLE_MENU
        else
          let appt := new_appointment user appointment_time in
          let db := set_appointments db (appointments db ++ [appt]) in
          out db (set_await_email ud false) [RConfirmed appointment_time] HANDLE_MENU
      end
    end.

Inductive ConfirmData := confirm_appt | cancel_appt.

(** The handler of the confirm and cancel buttons. *)
Definition save_appointment (db : DB) (ud : UserData) (sender : Z)
    (data : ConfirmData) : Outcome :=
  match data with
  | cancel_appt => out db ud [RCancelled] HANDLE_MENU
  | confirm_appt =>
    match users db !! sender with
    | None => out db ud [RErrorUserInfo] HANDLE_MENU
    | Some user =>
      match ud_appointment_date ud, ud_appointment_time ud with
      | Some appointment_date, Some appointment_time =>
        if no_email user
        then out db (set_await_email ud true) [RAskEmail] COLLECT_EMAIL
        else
          let attempt : result (DB * list Reply) :=
            if negb (is_slot_available (appointments db) appointment_time
                       (appointment_time + timedelta_minutes 30))
            then Raise (Exception (py "El horario seleccionado ya no está disponible."))
            else
              let appointment := new_appointment user appointment_time in
              Return (set_appointments db (appointments db ++ [appointment]),
                      [RConfirmed appointment_time]) in
          match attempt with
          | Return (db', replies) => out db' ud replies HANDLE_MENU
          | Raise e =>
            (* except Exception as e: the error is logged, the user reads the
               same text whatever was raised *)
            out db ud [RErrorNotSaved] HANDLE_MENU
          end
      | _, _ => out db ud [RErrorNoDetails] HANDLE_MENU
      end
    end
  end.

Section Menu.

Variable ratio : str -> str -> Q.

(** The handler of a text message in the menu state and in every state
    but the collect-e-mail one. *)
Definition handle_menu (now : date) (db : DB) (ud : UserData) (sender : Z)
    (message_text : str) : Outcome :=
  let text := lower message_text in
  let keywords := List.map py
    [ "agendar"; "cita"; "pregunta"; "faq"; "contacto"; "ayuda"; "acerca";
      "authenology" ]%string in
  if negb (any_in keywords text) then
    match pricing_answer text with
    | Some pa => out db ud [pa; RWasUseful] HANDLE_MENU
    | None =>
      match smalltalk_answer text with
      | Some st => out db ud [st] HANDLE_MENU
      | None =>
        match services_answer text with
        | Some sa => out db ud [sa; RWasUseful] HANDLE_MENU
        | None =>
          let db := add_question db {| uq_telegram_id := sender;
                                       question_text := text;
                                       source := from_text |} in
          match renewal_info_answer text with
          | Some ra => out db ud [ra; RWasUseful] HANDLE_MENU
          | None =>
            match best_faq_answer ratio (faqs db) text with
            | Some faq => out db ud [RFaq faq; RMoreHelp] HANDLE_MENU
            | None => out db ud [RSupportBlurb; RChooseOption] HANDLE_MENU
            end
          end
        end
      end
    end
  else if contains (py "agendar") text || contains (py "cita") text
  then schedule_appointment now db ud
  else if contains (py "pregunta") text || contains (py "faq") text
  then show_faq_categories db ud
  else if contains (py "contacto") text || contains (py "ayuda") text
  then show_contact_info db ud
  else if contains (py "acerca") text || contains (py "authenology") text
  then show_about db ud
  else out db ud [RNotUnderstood] HANDLE_MENU.

(** The handler registered for voice messages: the second definition of
    [handle_voice_message], which replaces the first one of the same name
    when the module is loaded.  [transcript] is what the transcription
    returns, empty when the audio was not understood (the voice service
    has then already told the user). *)
Definition handle_voice_message (db : DB) (ud : UserData) (sender : Z)
    (transcript : str) : Outcome :=
  match transcript with
  | [] => out db ud [RNotTranscribed] HANDLE_MENU
  | _ =>
    let text := transcript in
    let db := add_question db {| uq_telegram_id := sender;
                                 question_text := text;
                                 source := from_voice |} in
    match pricing_answer text with
    | Some pa => out db ud [pa] HANDLE_MENU
    | None =>
      match services_answer text with
      | Some sa => out db ud [sa] HANDLE_MENU
      | None =>
        match renewal_info_answer text with
        | Some ra => out db ud [ra] HANDLE_MENU
        | None =>
          match best_faq_answer ratio (faqs db) text with
          | Some faq => out db ud [RFaq faq; RMoreHelp] HANDLE_MENU
          | None => out db ud [RSupportBlurb; RChooseOption] HANDLE_MENU
          end
        end
      end
    end
  end.

End Menu.

(** ** Two booking commits on one appointments table

    A commit is the availability check followed by the insert, two
    separate accesses to the table as in [save_appointment] and
    [handle_email_input].  A schedule says which of the two calls moves
    next. *)

Inductive Phase :=
| Ready
| Checked (free : bool)
| Booked
| Conflict.

Record Call := {
  c_user : User;
  c_time : datetime;
  c_phase : Phase
}.

Definition set_phase (c : Call) (ph : Phase) : Call :=
  {| c_user := c_user c; c_time := c_time c; c_phase := ph |}.

Definition call_step (appts : list Appointment) (c : Call) : list Appointment * Call :=
  match c_phase c with
  | Ready =>
    (appts, set_phase c (Checked (is_slot_available appts (c_time c)
                                    (c_time c + timedelta_minutes 30))))
  | Checked true =>
    (appts ++ [new_appointment (c_user c) (c_time c)], set_phase c Booked)
  | Checked false => (appts, set_phase c Conflict)
  | Booked | Conflict => (appts, c)
  end.






(** The requested half-hours overlap, under the half-open rule. *)
Definition ranges_overlap (ta tb : datetime) : Prop :=
  ta < tb + timedelta_minutes 30 /\ tb < ta + timedelta_minutes 30.




(** The overlap test of the specification, on half-open intervals. *)
Definition overlaps (s : Slot) (a : Appointment) : Prop :=
  slot_start s < a_end a /\ slot_end s > a_start a.

(** Rows that end by the midnight that follows their start cannot reach
    the slots of another day. *)
Definition ends_within_day (a : Appointment) : Prop :=
  a_end a <= combine (date_of (a_start a) + 1) dtime_min.


(** ** The resolver in the words of the specification *)

(** The text names the weekday of index [w]. *)
Definition names_weekday (t : str) (w : Z) : Prop :=
  exists name, In (name, w) weekdays /\ contains name t = true.

(** [d] is the first day after [now] that falls on weekday [w]. *)
Definition next_occurrence (now : date) (w : Z) (d : date) : Prop :=
  weekday d = w /\ now < d <= now + 7.

(** The priority order of [ParseDate]; each word is also recognised in
    its spelling without the accent or tilde. *)
Definition parse_date_priority (now : date) (text : str) : Prop :=
  let t := lower text in
  let r := parse_spanish_date now text in
  if contains (py "pasado mañana") t || contains (py "pasado manana") t
  then r = Some (now + 2)
  else if contains (py "mañana") t || contains (py "manana") t
  then r = Some (now + 1)
  else if contains (py "hoy") t
  then r = Some now
  else match r with
       | Some d => exists w, names_weekday t w /\ next_occurrence now w d
       | None => forall w, ~ names_weekday t w
       end.








(** ** The scorer in the words of the specification *)

Section ScorerSpec.

Variable ratio : str -> str -> Q.

(** [f] has the greatest total among [entries], and is the first entry
    that has it. *)
Definition first_best (text : str) (tokens : gset str) (entries : list FAQ)
    (f : FAQ) : Prop :=
  exists i : nat,
    entries !! i = Some f /\
    (forall (j : nat) g, entries !! j = Some g ->
       (faq_score ratio text tokens g <= faq_score ratio text tokens f)%Q) /\
    (forall (j : nat) g, (j < i)%nat -> entries !! j = Some g ->
       (faq_score ratio text tokens g < faq_score ratio text tokens f)%Q).

(** What the loop of [best_faq_answer] knows after the entries [seen]. *)
Definition loop_inv (text : str) (tokens : gset str) (seen : list FAQ)
    (best : option FAQ) (best_score : Q) : Prop :=
  match best with
  | None =>
    best_score = 0%Q /\
    forall (j : nat) g, seen !! j = Some g -> (faq_score ratio text tokens g <= 0)%Q
  | Some f =>
    best_score = faq_score ratio text tokens f /\ (0 < best_score)%Q /\
    first_best text tokens seen f
  end.



End ScorerSpec.

(** ** Scenarios *)

(** The default business hours, 8 to 17. *)
Definition cfg_default : Config :=
  {| BUSINESS_HOURS_START := 8; BUSINESS_HOURS_END := 17 |}.

(** Friday 2024-06-14 at 14:00. *)
Definition friday : date := ymd 2024 6 14.
Definition two_pm : datetime := combine friday (14 * usec_per_hour).

Definition ana : User :=
  {| id := 1; telegram_id := 1001; first_name := py "Ana";
     email := Some (py "ana@example.com") |}.

Definition luis : User :=
  {| id := 2; telegram_id := 1002; first_name := py "Luis"; email := None |}.

(** Both users are registered and Ana already holds Friday 14:00. *)
Definition db_taken : DB :=
  {| users := <[1001 := ana]> (<[1002 := luis]> ∅);
     appointments := [new_appointment ana two_pm];
     faqs := [];
     user_questions := [] |}.

(** A conversation that has staged Friday 14:00. *)
Definition ud_staged : UserData :=
  {| ud_appointment_date := Some friday;
     ud_appointment_time := Some two_pm;
     ud_await_email := false;
     ud_current_state := Some CONFIRM_APPOINTMENT;
     ud_prev_state := None |}.

(** A conversation in the menu with nothing staged. *)
Definition ud_menu : UserData :=
  {| ud_appointment_date := None;
     ud_appointment_time := None;
     ud_await_email := false;
     ud_current_state := Some HANDLE_MENU;
     ud_prev_state := None |}.

(** Only Luis is registered, with no address and no appointment on the table. *)
Definition db_luis : DB :=
  {| users := <[1002 := luis]> ∅;
     appointments := [];
     faqs := [];
     user_questions := [] |}.

(** A similarity that finds nothing alike, for the runs that never
    consult it. *)
Definition no_similarity : str -> str -> Q := fun _ _ => 0%Q.

Definition friday_request : str := py "quiero agendar para el viernes a las 2pm".


(** Business hours that start at midnight, and a half-hour booked at
    23:45 on Thursday 2024-06-13, the eve of [friday]. *)
Definition cfg_midnight : Config :=
  {| BUSINESS_HOURS_START := 0; BUSINESS_HOURS_END := 17 |}.

Definition late_thursday : Appointment :=
  new_appointment ana (combine (friday - 1) (23 * usec_per_hour + 45 * usec_per_minute)).

Definition first_slot_friday : Slot :=
  {| slot_start := combine friday 0;
     slot_end := combine friday 0 + timedelta_minutes 30 |}.

(** Two rows of the seeded FAQ table. *)
Definition faq_hours : FAQ :=
  {| faq_id := 8; question := py "Horario de atención";
     answer := py "Lunes a Viernes: 8:00 AM a 5:00 PM.";
     category := py "general"; is_active := true |}.

Definition faq_price : FAQ :=
  {| faq_id := 5; question := py "¿Cuánto cuesta la firma electrónica?";
     answer := py "Persona Natural: $30/año. Profesional Titulado: $36/año. Persona Jurídica: $48/año. Precios más 16% de IVA y sujetos a tasa BCV del día.";
     category := py "facturacion"; is_active := true |}.

(** ** Invariant of the appointments table *)

(** Two rows overlap, as half-open intervals. *)
Definition clash (a b : Appointment) : Prop :=
  a_start a < a_end b /\ a_start b < a_end a.

(** No two rows that are not cancelled and start on the same day overlap. *)
Definition no_double_booking (appts : list Appointment) : Prop :=
  forall (i j : nat) a b,
    (i < j)%nat -> appts !! i = Some a -> appts !! j = Some b ->
    status a <> CANCELLED -> status b <> CANCELLED ->
    date_of (a_start a) = date_of (a_start b) ->
    ~ clash a b.

(** ** Button handlers

    The handlers below send messages of their own; [Screen] adds them to
    the replies of the handlers above, and a [View] is an [Outcome] over
    screens.  A callback payload is given parsed: the date of a
    ["date_<iso>"] button, the time of a ["time_<iso>"] button. *)

Inductive Screen :=
| SReply (r : Reply)
| SWelcome (name : str)          (* "¡Hola <name>! Bienvenido a Authenology ..." *)
| SSuggestions                   (* "Puedo ayudarte con precios, citas, contacto y más." *)
| SMainMenu (with_back : bool)   (* "Menú principal", with "Volver donde estaba" when [with_back] *)
| SNoSlots                       (* "Lo siento, no hay horarios disponibles para la fecha seleccionada. ..." *)
| STimeSlots (d : date) (slots : list Slot)
                                 (* "Selecciona un horario para el <d>:" with one button for each slot *)
| SConfirmPrompt (t : datetime)  (* "Confirmación de cita ... ¿Deseas confirmar esta cita?" *)
| SUnknownAction                 (* "No entendí esa acción. Te muestro el menú principal." *)
| SNoFaqs                        (* "No hay preguntas frecuentes disponibles en esta categoría." *)
| SFaqList (category_ : str) (faqs_ : list FAQ)
                                 (* "Preguntas frecuentes - <category>" with one button for each row *)
| SFaqNotFound                   (* "No se encontró la pregunta seleccionada." *)
| SFaqAnswer (faq : FAQ).        (* the question, the answer and "¿Necesitas más ayuda?" *)

Record View := {
  v_db : DB;
  v_ud : UserData;
  v_sent : list Screen;
  v_next : ConvState
}.

Definition view (db : DB) (ud : UserData) (ss : list Screen) (st : ConvState) : View :=
  {| v_db := db; v_ud := ud; v_sent := ss; v_next := st |}.

Definition view_of (o : Outcome) : View :=
  view (o_db o) (o_ud o) (List.map SReply (o_replies o)) (o_next o).

Definition set_appointment_date (ud : UserData) (d : date) : UserData :=
  {| ud_appointment_date := Some d;
     ud_appointment_time := ud_appointment_time ud;
     ud_await_email := ud_await_email ud;
     ud_current_state := ud_current_state ud;
     ud_prev_state := ud_prev_state ud |}.

Definition set_appointment_time (ud : UserData) (t : datetime) : UserData :=
  {| ud_appointment_date := ud_appointment_date ud;
     ud_appointment_time := Some t;
     ud_await_email := ud_await_email ud;
     ud_current_state := ud_current_state ud;
     ud_prev_state := ud_prev_state ud |}.

Definition set_prev_state (ud : UserData) (st : ConvState) : UserData :=
  {| ud_appointment_date := ud_appointment_date ud;
     ud_appointment_time := ud_appointment_time ud;
     ud_await_email := ud_await_email ud;
     ud_current_state := ud_current_state ud;
     ud_prev_state := Some st |}.

(** The id of a new row of the users table: one more than the greatest
    in use (the rule of SQLite for an integer primary key). *)
Definition next_user_id (us : gmap Z User) : Z :=
  1 + map_fold (fun _ u acc => Z.max (id u) acc) 0 us.

(** [/start]: registers the sender when the users table has no row for
    the Telegram id, greets, and returns the menu state. *)
Definition start (db : DB) (ud : UserData) (sender : Z) (name : str) : View :=
  let db :=
    match users db !! sender with
    | Some _ => db
    | None =>
      let user := {| id := next_user_id (users db); telegram_id := sender;
                     first_name := name; email := None |} in
      set_users db (<[sender := user]> (users db))
    end in
  view db (set_current_state ud HANDLE_MENU) [SWelcome name; SSuggestions] HANDLE_MENU.

Definition render_main_menu (db : DB) (ud : UserData) : View :=
  let prev := default HANDLE_MENU (ud_current_state ud) in
  let ud := set_prev_state ud prev in
  let with_back := match prev with HANDLE_MENU => false | _ => true end in
  view db (set_current_state ud HANDLE_MENU) [SMainMenu with_back] HANDLE_MENU.

Definition back_prev (now : date) (db : DB) (ud : UserData) (sender : Z)
    (name : str) : View :=
  match default HANDLE_MENU (ud_prev_state ud) with
  | HANDLE_FAQ => view_of (show_faq_categories db ud)
  | HANDLE_CONTACT => view_of (show_contact_info db ud)
  | SCHEDULE_APPOINTMENT | SELECT_DATE | SELECT_TIME | CONFIRM_APPOINTMENT =>
    view_of (schedule_appointment now db ud)
  | _ => start db ud sender name
  end.

Definition handle_unknown_callback (db : DB) (ud : UserData) (sender : Z)
    (name : str) : View :=
  let v := start db ud sender name in
  view (v_db v) (v_ud v) (SUnknownAction :: v_sent v) (v_next v).

(** The handler of a date button. *)
Definition select_time (cfg : Config) (db : DB) (ud : UserData)
    (selected_date : date) : View :=
  let ud := set_appointment_date ud selected_date in
  let time_slots := get_available_slots_from_db cfg (appointments db) selected_date in
  match time_slots with
  | [] => view db ud [SNoSlots] SELECT_DATE
  | _ :: _ =>
    view db (set_current_state ud SELECT_TIME)
         [STimeSlots selected_date time_slots] SELECT_TIME
  end.

(** The same list for a date that did not come from a button. *)
Definition show_time_slots_for_date (cfg : Config) (db : DB) (ud : UserData)
    (selected_date : date) : View :=
  let ud := set_appointment_date ud selected_date in
  let time_slots := get_available_slots_from_db cfg (appointments db) selected_date in
  match time_slots with
  | [] => view db ud [SNoSlots] SELECT_DATE
  | _ :: _ =>
    view db (set_current_state ud SELECT_TIME)
         [STimeSlots selected_date time_slots] SELECT_TIME
  end.

Inductive TimeData :=
| back_to_dates
| time_at (t : datetime).

(** The handler of a time button. *)
Definition confirm_appointment (now : date) (db : DB) (ud : UserData)
    (data : TimeData) : View :=
  match data with
  | back_to_dates => view_of (schedule_appointment now db ud)
  | time_at selected_time =>
    let ud := set_appointment_time ud selected_time in
    view db (set_current_state ud CONFIRM_APPOINTMENT)
         [SConfirmPrompt selected_time] CONFIRM_APPOINTMENT
  end.

Definition ask_confirm_for_time (db : DB) (ud : UserData) (selected_time : datetime)
    : View :=
  let ud := set_appointment_date ud (date_of selected_time) in
  let ud := set_appointment_time ud selected_time in
  view db (set_current_state ud CONFIRM_APPOINTMENT)
       [SConfirmPrompt selected_time] CONFIRM_APPOINTMENT.

(** The date-selection reply is the only one that opens the booking flow. *)
Definition is_select_date (r : Reply) : bool :=
  match r with RSelectDate _ => true | _ => false end.

(** How many of the dates fall on weekday [w]. *)
Definition count_weekday (w : Z) (dates : list date) : nat :=
  length (List.filter (fun d => weekday d =? w) dates).

(** User ids are unique in the users table. *)
Definition unique_ids (us : gmap Z User) : Prop :=
  forall k1 k2 u1 u2,
    us !! k1 = Some u1 -> us !! k2 = Some u2 -> id u1 = id u2 -> k1 = k2.

(** The character before the position reached by reading [g]. *)
Definition prev_after (prev : option codepoint) (g : str) : option codepoint :=
  fold_left (fun _ c => Some c) g prev.

Definition email_local_char (c : codepoint) : bool :=
  is_alpha_ascii c || is_digit c || one_of "._%+-" c.

Definition email_domain_char (c : codepoint) : bool :=
  is_alpha_ascii c || is_digit c || one_of ".-" c.

(** The addresses that [valid_email] is meant to accept: a local part, an
    [@], a domain, a dot and a top-level name of two letters or more. *)
Definition email_shape (s : str) : Prop :=
  exists l d t,
    s = l ++ py "@" ++ d ++ py "." ++ t /\
    l <> [] /\ forallb email_local_char l = true /\
    d <> [] /\ forallb email_domain_char d = true /\
    (2 <= length t)%nat /\ forallb is_alpha_ascii t = true.

(** [s.count(c)] for a one-character [c]. *)
Definition count_cp (c : codepoint) (s : str) : nat :=
  length (List.filter (N.eqb c) s).

(** ** Seeding the FAQ table

    [seed_faqs] of [database/questions_db.py], which [main] runs before
    the bot starts.  The table is read in row order, a text column is
    compared exactly, and [is_active] is a boolean (no [NULL]). *)

(** A [FAQ(question=..., answer=..., category=...)] object that is not
    in the table yet. *)
Record SeedFAQ := {
  s_question : str;
  s_answer : str;
  s_category : str
}.

Definition seed_rows : list SeedFAQ :=
  [ {| s_question := py "¿Qué es Authenology?";
       s_answer := py "Authenology es una plataforma venezolana que te permite firmar documentos de manera electrónica y legalmente válida desde cualquier lugar y dispositivo. Nuestro objetivo es simplificar tus trámites, ahorrarte tiempo y reducir el uso de papel.";
       s_category := py "general" |};
    {| s_question := py "¿Cómo puedo empezar a usar Authenology?";
       s_answer := py "Visita nuestro app web regístrate y podrás empezar a firmar en minutos. Ingresa a app.authenology.com.ve desde tu Laptop o PC e incluso desde tu dispositivo movil.";
       s_category := py "general" |};
    {| s_question := py "¿Las firmas electrónicas de Authenology son legales en Venezuela?";
       s_answer := py "Sí. Cumplen con la Ley de Mensajes de Datos y Firmas Electrónicas de Venezuela. Tienen la misma validez legal que una firma manuscrita.";
       s_category := py "legal" |};
    {| s_question := py "¿Qué tan segura es la plataforma?";
       s_answer := py "Usamos cifrado SSL y múltiples capas de seguridad. Cada firma genera un hash unico que no es capaz alterarse ni rompese y que garantiza la integridad del documento.";
       s_category := py "tecnico" |};
    {| s_question := py "¿Cuánto cuesta la firma electrónica?";
       s_answer := py "Persona Natural: $30/año. Profesional Titulado: $36/año. Persona Jurídica: $48/año. Precios más 16% de IVA y sujetos a tasa BCV del día.";
       s_category := py "facturacion" |};
    {| s_question := py "¿Cómo firmo un documento desde el aplicativo?";
       s_answer := py "1) Entra a app.authenology.com.ve. 2) Inicia sesión. 3) Ve a 'Firmar'. 4) Carga el PDF. 5) Selecciona tu certificado .p12 y coloca tu contraseña. 6) Elige 'QR + Información'. 7) Posiciona la firma y presiona 'Firmar'.";
       s_category := py "uso" |};
    {| s_question := py "¿Dónde y cómo puedo pagar?";
       s_answer := py "Banco de Venezuela: 0102-0105-54-0000616575, AUTHENTICSING C.A., RIF J503240237, Tel 04123379711."
                   ++ [10%N]
                   ++ py "Banco Nacional de Crédito (BNC): 0191-0098-74-2198344333, AUTHENTICSING, C.A., RIF J503240237, Tel 04141278081.";
       s_category := py "pagos" |};
    {| s_question := py "Horario de atención";
       s_answer := py "Lunes a Viernes: 8:00 AM a 5:00 PM.";
       s_category := py "general" |} ].

Definition set_answer (r : FAQ) (a : str) : FAQ :=
  {| faq_id := faq_id r; question := question r; answer := a;
     category := category r; is_active := is_active r |}.

Definition set_category (r : FAQ) (c : str) : FAQ :=
  {| faq_id := faq_id r; question := question r; answer := answer r;
     category := c; is_active := is_active r |}.

Definition set_is_active (r : FAQ) (b : bool) : FAQ :=
  {| faq_id := faq_id r; question := question r; answer := answer r;
     category := category r; is_active := b |}.

(** The body of the loop for a question that has a row: the row after
    it, and the flag [changed] that makes the loop set [updated_at]. *)
Definition refresh (f : SeedFAQ) (existing : FAQ) : FAQ * bool :=
  let '(existing, changed) :=
    if negb (str_eqb (answer existing) (s_answer f))
    then (set_answer existing (s_answer f), true) else (existing, false) in
  let '(existing, changed) :=
    if negb (str_eqb (category existing) (s_category f))
    then (set_category existing (s_category f), true) else (existing, changed) in
  if negb (is_active existing)
  then (set_is_active existing true, true) else (existing, changed).

(** The session of [seed_faqs]: the rows of the table as the session
    holds them, the objects added and not yet inserted, and the ids of
    the rows whose [updated_at] the loop has set.  The session does not
    flush before a query ([autoflush=False]), so a query does not see the
    added objects. *)
Record Session := {
  rows : list FAQ;
  pending : list SeedFAQ;
  updated : list Z
}.

(** One round of the loop: [existing = db.query(FAQ).filter(FAQ.question
    == f.question).first()], then the update or [db.add(f)]. *)
Definition upsert (s : Session) (f : SeedFAQ) : Session :=
  match list_find (fun r => question r = s_question f) (rows s) with
  | Some (i, existing) =>
    let '(existing', changed) := refresh f existing in
    {| rows := <[i := existing']> (rows s);
       pending := pending s;
       updated := if changed then updated s ++ [faq_id existing] else updated s |}
  | None =>
    {| rows := rows s; pending := pending s ++ [f]; updated := updated s |}
  end.

(** The id of a new row: one more than the greatest in use. *)
Definition next_faq_id (table : list FAQ) : Z :=
  1 + foldr Z.max 0 (faq_id <$> table).

(** The rows that [db.commit()] inserts for the added objects, in the
    order of [db.add]; [is_active] takes its default. *)
Fixpoint insert_rows (next : Z) (fs : list SeedFAQ) : list FAQ :=
  match fs with
  | [] => []
  | f :: fs' =>
    {| faq_id := next; question := s_question f; answer := s_answer f;
       category := s_category f; is_active := true |} :: insert_rows (next + 1) fs'
  end.

Definition commit (s : Session) : list FAQ :=
  rows s ++ insert_rows (next_faq_id (rows s)) (pending s).

Definition open_session (table : list FAQ) : Session :=
  {| rows := table; pending := []; updated := [] |}.

(** The table after [seed_faqs()], and the ids of the rows whose
    [updated_at] it set. *)
Definition seed_faqs (table : list FAQ) : list FAQ :=
  commit (fold_left upsert seed_rows (open_session table)).

Definition seed_faqs_updated (table : list FAQ) : list Z :=
  updated (fold_left upsert seed_rows (open_session table)).

(** ** Browsing the FAQ *)

(** The category buttons of [show_faq_categories], whose callback data
    is ["faqcat_<category>"]. *)
Definition faq_categories : list str :=
  List.map py [ "general"; "legal"; "tecnico"; "facturacion"; "uso"; "pagos" ]%string.

(** [s.split('_', 1)[1]]: what follows the first underscore. *)
Fixpoint after_underscore (s : str) : option str :=
  match s with
  | [] => None
  | c :: s' => if (c =? 95)%N then Some s' else after_underscore s'
  end.

(** The handler of a category button, on its callback data. *)
Definition show_faqs (db : DB) (ud : UserData) (sender : Z) (name : str)
    (data : str) : result View :=
  if str_eqb data (py "back_to_menu") then Return (start db ud sender name)
  else if str_eqb data (py "back_to_categories")
  then Return (view_of (show_faq_categories db ud))
  else
    match after_underscore data with
    | None => Raise (Exception (py "list index out of range"))
    | Some category_ =>
      let faqs_ := List.filter (fun f => str_eqb (category f) category_ && is_active f)
                     (faqs db) in
      match faqs_ with
      | [] => Return (view db ud [SNoFaqs] HANDLE_FAQ)
      | _ :: _ => Return (view db ud [SFaqList category_ faqs_] HANDLE_FAQ)
      end
    end.

(** The callback data of [show_faq_answer], parsed: ["back_to_faqs"] or
    ["faq_<id>"]. *)
Inductive FaqData :=
| back_to_faqs
| faq_ (n : Z).

(** The handler of a question button and of "back to questions".  The
    key [faq_category] of [context.user_data] is passed and returned
    beside the view. *)
Definition show_faq_answer (db : DB) (ud : UserData) (sender : Z) (name : str)
    (faq_category : option str) (data : FaqData) : result (View * option str) :=
  match data with
  | back_to_faqs =>
    (* category = context.user_data.get('faq_category', 'general') is not used *)
    match show_faqs db ud sender name (py "back_to_faqs") with
    | Return v => Return (v, faq_category)
    | Raise e => Raise e
    end
  | faq_ n =>
    match List.find (fun f => faq_id f =? n) (faqs db) with
    | None => Return (view db ud [SFaqNotFound] HANDLE_FAQ, faq_category)
    | Some faq =>
      Return (view db ud [SFaqAnswer faq] HANDLE_FAQ, Some (category faq))
    end
  end.

Definition set_faqs (db : DB) (l : list FAQ) : DB :=
  {| users := users db; appointments := appointments db; faqs := l;
     user_questions := user_questions db |}.

(** The row [r] is the active row of the seed [f]: its question, with
    the answer and the category of the code. *)
Definition carries (f : SeedFAQ) (r : FAQ) : Prop :=
  question r = s_question f /\ answer r = s_answer f /\
  category r = s_category f /\ is_active r = true.

(** The seed has no row in the table. *)
Definition missing (table : list FAQ) (f : SeedFAQ) : bool :=
  match list_find (fun r => question r = s_question f) table with
  | None => true
  | Some _ => false
  end.

(** * Properties *)

Example py_manana : py "mañana" = [109; 97; 241; 97; 110; 97]%N.
Proof. reflexivity. Qed.

Example split_example :
  split (py "  hola   que tal ") = [py "hola"; py "que"; py "tal"].
Proof. reflexivity. Qed.

Example lower_example : lower (py "MAÑANA Sábado") = py "mañana sábado".
Proof. reflexivity. Qed.



(** ** Slots of a business day *)

Section DaySlots.

Lemma usec_per_day_pos : 0 < usec_per_day.
Proof. reflexivity. Qed.

Lemma step_pos : 0 < timedelta_minutes 30.
Proof. reflexivity. Qed.

Lemma daterange_loop_lookup fuel : forall cur step end_dt (i : nat) s,
  daterange_loop fuel cur step end_dt !! i = Some s ->
  slot_start s = cur + Z.of_nat i * step /\
  slot_end s = cur + Z.of_nat i * step + step /\
  slot_end s <= end_dt.
Proof.
  induction fuel as [|fuel IH]; intros cur step end_dt i s; cbn [daterange_loop].
  - intros H. discriminate H.
  - destruct (Z.leb_spec (cur + step) end_dt) as [Hle|Hgt].
    + destruct i as [|i]; cbn.
      * intros [= <-]. cbn. lia.
      * intros H. apply IH in H. lia.
    + intros H. discriminate H.
Qed.


(** The loop of [daterange_slots] leaves by its test, never by the bound:
    more iterations allowed give the same list. *)
Lemma daterange_loop_fuel fuel : forall extra cur step end_dt,
  0 < step ->
  (Z.to_nat ((end_dt - cur) / step) < fuel)%nat ->
  daterange_loop (fuel + extra) cur step end_dt = daterange_loop fuel cur step end_dt.
Proof.
  induction fuel as [|fuel IH]; intros extra cur step end_dt Hs Hf; [lia|].
  cbn [Nat.add daterange_loop].
  destruct (Z.leb_spec (cur + step) end_dt) as [Hc|Hc]; [|reflexivity].
  f_equal. apply IH; [assumption|].
  replace (end_dt - (cur + step)) with ((end_dt - cur) + (-1) * step) by lia.
  rewrite Z.div_add by lia.
  assert (1 <= (end_dt - cur) / step) by (apply Z.div_le_lower_bound; lia).
  lia.
Qed.

Lemma daterange_slots_lookup cfg d (i : nat) s :
  daterange_slots cfg d !! i = Some s ->
  slot_start s = combine d (BUSINESS_HOURS_START cfg * usec_per_hour)
                 + Z.of_nat i * timedelta_minutes 30 /\
  slot_end s = slot_start s + timedelta_minutes 30 /\
  slot_end s <= combine d (BUSINESS_HOURS_END cfg * usec_per_hour).
Proof.
  unfold daterange_slots. intros H.
  apply daterange_loop_lookup in H. lia.
Qed.

Lemma daterange_slots_fuel cfg d extra :
  daterange_loop (Z.to_nat ((combine d (BUSINESS_HOURS_END cfg * usec_per_hour)
                             - combine d (BUSINESS_HOURS_START cfg * usec_per_hour))
                            / timedelta_minutes 30) + 1 + extra)
    (combine d (BUSINESS_HOURS_START cfg * usec_per_hour)) (timedelta_minutes 30)
    (combine d (BUSINESS_HOURS_END cfg * usec_per_hour))
  = daterange_slots cfg d.
Proof. unfold daterange_slots. apply daterange_loop_fuel; [apply step_pos | lia]. Qed.



End DaySlots.

(** ** Availability *)

Section Availability.

Lemma date_of_bounds (dt : datetime) (d : date) :
  date_of dt = d <-> combine d dtime_min <= dt <= combine d dtime_max.
Proof.
  unfold date_of, combine, dtime_min, dtime_max.
  pose proof usec_per_day_pos as Hp.
  split.
  - intros <-. pose proof (Z.mul_div_le dt usec_per_day Hp).
    pose proof (Z.mul_succ_div_gt dt usec_per_day Hp). lia.
  - intros [H1 H2]. symmetry. apply (Z.div_unique_pos dt usec_per_day d (dt - d * usec_per_day)); lia.
Qed.

Lemma appts_of_day_In appts day a :
  In a (appts_of_day appts day) <->
  In a appts /\ date_of (appointment_date a) = day /\ status a <> CANCELLED.
Proof.
  unfold appts_of_day. rewrite filter_In, date_of_bounds.
  rewrite !andb_true_iff, !Z.leb_le, negb_true_iff.
  assert (is_cancelled (status a) = false <-> status a <> CANCELLED)
    by (destruct (status a); cbn; split; congruence).
  tauto.
Qed.

Lemma overlaps_some_true rows start_dt end_dt :
  overlaps_some rows start_dt end_dt = true <->
  exists a, In a rows /\ start_dt < a_end a /\ a_start a < end_dt.
Proof.
  induction rows as [|a rows IH]; cbn.
  - split; [discriminate | intros (a & [] & _)].
  - destruct (Z.ltb_spec start_dt (a_end a)) as [H1|H1];
    destruct (Z.ltb_spec (a_start a) end_dt) as [H2|H2]; cbn;
      try (rewrite IH; split;
           [ intros (b & Hb & Hov); exists b; tauto
           | intros (b & [-> | Hb] & Hov); [lia | exists b; tauto] ]).
    split; [intros _; exists a; tauto | reflexivity].
Qed.

Lemma available_loop_filter rows all_slots :
  available_loop rows all_slots =
  List.filter (fun s => negb (overlaps_some rows (slot_start s) (slot_end s))) all_slots.
Proof.
  induction all_slots as [|s rest IH]; cbn; [reflexivity|].
  destruct (overlaps_some rows (slot_start s) (slot_end s)); cbn; congruence.
Qed.

Lemma available_loop_sublist rows all_slots :
  sublist (available_loop rows all_slots) all_slots.
Proof.
  induction all_slots as [|s rest IH]; cbn; [constructor|].
  destruct (overlaps_some rows (slot_start s) (slot_end s)); now constructor.
Qed.

(** [is_slot_available] in the words of the specification: no row that
    starts on the day of [start_dt] and is not cancelled overlaps. *)
Lemma is_slot_available_spec appts start_dt end_dt :
  is_slot_available appts start_dt end_dt = true <->
  forall a, In a appts -> status a <> CANCELLED ->
    date_of (appointment_date a) = date_of start_dt ->
    ~ (start_dt < a_end a /\ end_dt > a_start a).
Proof.
  unfold is_slot_available, ensure_tz. rewrite negb_true_iff.
  rewrite <- not_true_iff_false, overlaps_some_true. split.
  - intros Hno a Ha Hst Hday Hov. apply Hno. exists a.
    rewrite appts_of_day_In. repeat split; try tauto; lia.
  - intros Hall (a & Ha & Hov). apply appts_of_day_In in Ha as (Ha & Hday & Hst).
    apply (Hall a Ha Hst Hday). lia.
Qed.

Lemma available_slots_In (cfg : Config) (appts : list Appointment) (d : date) s :
  In s (get_available_slots_from_db cfg appts d) <->
    In s (daterange_slots cfg d) /\
    forall a, In a appts -> status a <> CANCELLED ->
      date_of (appointment_date a) = d -> ~ overlaps s a.
Proof.
  unfold get_available_slots_from_db.
  rewrite available_loop_filter, filter_In, negb_true_iff.
  rewrite <- not_true_iff_false, overlaps_some_true. unfold overlaps.
  split; intros [Hin Hno]; split; try assumption.
  - intros a Ha Hst Hday Hov. apply Hno. exists a.
    rewrite appts_of_day_In. repeat split; try tauto; lia.
  - intros (a & Ha & Hov). apply appts_of_day_In in Ha as (Ha & Hday & Hst).
    apply (Hno a Ha Hst Hday). lia.
Qed.

(** C4, as amended: the available slots of a date are the slots of the
    day, in their order, that overlap no row that starts on that date and
    is not cancelled; touching boundaries do not overlap and a cancelled
    row blocks nothing. *)
Theorem available_slots_spec (cfg : Config) (appts : list Appointment) (d : date) :
  sublist (get_available_slots_from_db cfg appts d) (daterange_slots cfg d) /\
  (forall s, In s (get_available_slots_from_db cfg appts d) <->
     In s (daterange_slots cfg d) /\
     forall a, In a appts -> status a <> CANCELLED ->
       date_of (appointment_date a) = d -> ~ overlaps s a) /\
  (forall s a, slot_end s <= a_start a \/ a_end a <= slot_start s -> ~ overlaps s a).
Proof.
  split; [apply available_loop_sublist|].
  split; [apply available_slots_In|].
  unfold overlaps. lia.
Qed.

(** When every live row ends within its day, as the rows the bot writes
    do, the restriction to the rows of the date can be dropped. *)
Lemma available_slots_all_rows (cfg : Config) (appts : list Appointment) (d : date) :
  valid_hours cfg ->
  (forall a, In a appts -> status a <> CANCELLED -> ends_within_day a) ->
  forall s, In s (get_available_slots_from_db cfg appts d) <->
    In s (daterange_slots cfg d) /\
    forall a, In a appts -> status a <> CANCELLED -> ~ overlaps s a.
Proof.
  intros [Hs He] Hday s. rewrite available_slots_In.
  split; intros [Hin Hno]; split; try assumption.
  - intros a Ha Hst.
    destruct (Z.eq_dec (date_of (appointment_date a)) d) as [Heq|Hne];
      [now apply Hno|].
    specialize (Hday a Ha Hst). unfold ends_within_day, a_start, ensure_tz in Hday.
    apply list_elem_of_In, list_elem_of_lookup in Hin as [i Hi].
    apply daterange_slots_lookup in Hi.
    pose proof (proj1 (date_of_bounds (appointment_date a) _) eq_refl) as Hb.
    unfold overlaps, a_end, a_start, ensure_tz in *.
    unfold combine, dtime_min, dtime_max in *.
    assert (usec_per_hour = 3600000000) by reflexivity.
    assert (usec_per_day = 86400000000) by reflexivity.
    assert (timedelta_minutes 30 = 1800000000) by reflexivity.
    nia.
  - intros a Ha Hst _. now apply Hno.
Qed.

End Availability.


(** ** Date resolver *)

Section ParseDate.

Lemma contains_nil_cons c (w : str) : contains (c :: w) [] = false.
Proof. reflexivity. Qed.

Lemma weekday_next (now w : Z) :
  0 <= w < 7 ->
  next_occurrence now w
    (now + (if (w - weekday now) mod 7 =? 0 then 7 else (w - weekday now) mod 7)).
Proof.
  intros Hw. unfold next_occurrence, weekday.
  destruct (Z.eqb_spec ((w - (now + 6) mod 7) mod 7) 0) as [H0|H0];
    Z.div_mod_to_equations; lia.
Qed.

Lemma weekday_loop_spec items t now :
  (forall name w, In (name, w) items -> 0 <= w < 7) ->
  match weekday_loop items t now with
  | Some d => exists name w, In (name, w) items /\ contains name t = true
                             /\ next_occurrence now w d
  | None => forall name w, In (name, w) items -> contains name t = false
  end.
Proof.
  induction items as [|[name idx] items IH]; intros Hidx; cbn [weekday_loop].
  - intros name w [].
  - destruct (contains name t) eqn:Hc.
    + exists name, idx. split; [now left|]. split; [assumption|].
      apply weekday_next. apply (Hidx name idx). now left.
    + specialize (IH (fun n w H => Hidx n w (or_intror H))).
      destruct (weekday_loop items t now) as [d|].
      * destruct IH as (n & w & Hin & Hn & Hd). exists n, w.
        split; [now right | tauto].
      * intros n w [[= <- <-]|Hin]; [assumption | exact (IH n w Hin)].
Qed.

Lemma weekdays_indices name w : In (name, w) weekdays -> 0 <= w < 7.
Proof.
  unfold weekdays. cbn [In].
  intros H; repeat (destruct H as [[= <- <-]|H]; [lia|]); destruct H.
Qed.

Lemma parse_date_priority_holds now text : parse_date_priority now text.
Proof.
  unfold parse_date_priority, parse_spanish_date.
  destruct text as [|c text].
  - cbn -[weekdays]. intros w (name & Hin & Hc).
    unfold weekdays in Hin. cbn [In] in Hin.
    repeat (destruct Hin as [[= <- <-]|Hin]; [discriminate Hc|]); destruct Hin.
  - set (t := lower (c :: text)).
    destruct (contains (py "pasado mañana") t || contains (py "pasado manana") t);
      [reflexivity|].
    destruct (contains (py "mañana") t || contains (py "manana") t); [reflexivity|].
    destruct (contains (py "hoy") t); [reflexivity|].
    pose proof (weekday_loop_spec weekdays t now weekdays_indices) as H.
    destruct (weekday_loop weekdays t now) as [d|].
    + destruct H as (name & w & Hin & Hc & Hd). exists w. split; [|assumption].
      now exists name.
    + intros w (name & Hin & Hc). rewrite (H name w Hin) in Hc. discriminate.
Qed.


End ParseDate.

(** ** Time resolver *)

Section ParseTime.






End ParseTime.

(** ** Choice of a slot *)

Section PickBestSlot.

Lemma insert_by_start_In x s l : In x (insert_by_start s l) <-> x = s \/ In x l.
Proof.
  induction l as [|y l IH]; cbn.
  - intuition congruence.
  - destruct (slot_start s <=? slot_start y); cbn; rewrite ?IH; intuition congruence.
Qed.

Lemma sort_by_start_In x l : In x (sort_by_start l) <-> In x l.
Proof.
  induction l as [|y l IH]; cbn; [tauto|].
  rewrite insert_by_start_In, IH. intuition congruence.
Qed.









(** With Friday 14:00 taken, the request for 14:00 gets 14:30; an hour
    that is no hour of the day raises once the day has a slot. *)
Example pick_best_slot_examples :
  pick_best_slot_for_datetime cfg_default (appointments db_taken) friday 14 0
    = Return (Some {| slot_start := combine friday (14 * usec_per_hour + 30 * usec_per_minute);
                      slot_end := combine friday (15 * usec_per_hour) |}) /\
  pick_best_slot_for_datetime cfg_default (appointments db_taken) friday 18 0
    = Return (Some {| slot_start := combine friday (16 * usec_per_hour + 30 * usec_per_minute);
                      slot_end := combine friday (17 * usec_per_hour) |}) /\
  pick_best_slot_for_datetime cfg_default (appointments db_taken) friday 99 0
    = Raise ValueError.
Proof. repeat split; vm_compute; reflexivity. Qed.

End PickBestSlot.

(** ** FAQ scorer *)

Section BestMatch.

Variable ratio : str -> str -> Q.
Variable text : str.
Variable tokens : gset str.

Local Abbreviation score := (faq_score ratio text tokens).



Lemma faq_loop_inv todo : forall seen best best_score,
  loop_inv ratio text tokens seen best best_score ->
  loop_inv ratio text tokens (seen ++ todo)
    (fst (faq_loop ratio text tokens todo best best_score))
    (snd (faq_loop ratio text tokens todo best best_score)).
Proof.
  induction todo as [|f todo IH]; intros seen best bs Hinv; cbn [faq_loop].
  - now rewrite app_nil_r.
  - replace (seen ++ f :: todo) with ((seen ++ [f]) ++ todo)
      by now rewrite <- app_assoc.
    destruct (Qle_bool (score f) bs) eqn:Hcmp; cbn [negb]; apply IH.
    + apply Qle_bool_iff in Hcmp.
      destruct best as [b|]; cbn [loop_inv] in *.
      * destruct Hinv as (-> & Hpos & i & Hi & Hmax & Hfirst).
        split; [reflexivity|]. split; [exact Hpos|].
        exists i. split; [now apply lookup_app_l_Some|]. split.
        -- intros j g Hj. apply lookup_app_Some in Hj as [Hj|[_ Hj]];
             [now apply (Hmax j)|].
           apply list_lookup_singleton_Some in Hj as [_ <-]. exact Hcmp.
        -- intros j g Hji Hj. apply lookup_app_Some in Hj as [Hj|[Hlen _]];
             [now apply (Hfirst j)|].
           apply lookup_lt_Some in Hi. lia.
      * destruct Hinv as [-> Hall]. split; [reflexivity|].
        intros j g Hj. apply lookup_app_Some in Hj as [Hj|[_ Hj]];
          [now apply (Hall j)|].
        apply list_lookup_singleton_Some in Hj as [_ <-]. exact Hcmp.
    + assert (bs < score f)%Q as Hlt.
      { apply Qnot_le_lt. intros Hle. apply Qle_bool_iff in Hle. congruence. }
      assert (0 <= bs)%Q as Hbs.
      { destruct best; cbn [loop_inv] in Hinv.
        - destruct Hinv as (_ & Hpos & _). now apply Qlt_le_weak.
        - destruct Hinv as [-> _]. apply Qle_refl. }
      cbn [loop_inv]. split; [reflexivity|].
      split; [now apply Qle_lt_trans with bs|].
      exists (length seen). split.
      { rewrite lookup_app_r by lia. now rewrite Nat.sub_diag. }
      assert (Hprev : forall (j : nat) g, seen !! j = Some g -> (score g <= bs)%Q).
      { intros j g Hj. destruct best as [b|]; cbn [loop_inv] in Hinv.
        - destruct Hinv as (-> & _ & i & _ & Hmax & _). now apply (Hmax j).
        - destruct Hinv as [-> Hall]. now apply (Hall j). }
      split.
      * intros j g Hj. apply lookup_app_Some in Hj as [Hj|[_ Hj]].
        -- apply Qlt_le_weak, Qle_lt_trans with bs; [now apply (Hprev j) | exact Hlt].
        -- apply list_lookup_singleton_Some in Hj as [_ <-]. apply Qle_refl.
      * intros j g Hjl Hj. apply lookup_app_Some in Hj as [Hj|[Hlen _]]; [|lia].
        apply Qle_lt_trans with bs; [now apply (Hprev j) | exact Hlt].
Qed.


End BestMatch.


(** On token overlap alone (similarity 0 everywhere): the query shares
    two tokens with the question of [faq_hours], total 4, and is answered
    by it; "hola" shares none and gets no answer; "de la" keeps no token. *)
Example best_faq_answer_examples :
  best_faq_answer no_similarity [faq_price; faq_hours] (py "Horario de atención")
    = Some faq_hours /\
  best_faq_answer no_similarity [faq_price; faq_hours] (py "hola") = None /\
  best_faq_answer no_similarity [faq_price; faq_hours] (py "de la") = None.
Proof. repeat split; vm_compute; reflexivity. Qed.

(** ** Booking handlers *)

Section Handlers.

(** [save_appointment] never inserts when the re-check fails, and what
    the user reads then is the text of its catch-all error branch. *)
Lemma save_appointment_conflict db ud sender user d t :
  users db !! sender = Some user -> no_email user = false ->
  ud_appointment_date ud = Some d -> ud_appointment_time ud = Some t ->
  is_slot_available (appointments db) t (t + timedelta_minutes 30) = false ->
  save_appointment db ud sender confirm_appt = out db ud [RErrorNotSaved] HANDLE_MENU.
Proof.
  intros Hu He Hd Ht Hfree. unfold save_appointment.
  now rewrite Hu, Hd, Ht, He, Hfree.
Qed.

Lemma save_appointment_books db ud sender user d t :
  users db !! sender = Some user -> no_email user = false ->
  ud_appointment_date ud = Some d -> ud_appointment_time ud = Some t ->
  is_slot_available (appointments db) t (t + timedelta_minutes 30) = true ->
  save_appointment db ud sender confirm_appt =
  out (set_appointments db (appointments db ++ [new_appointment user t])) ud
      [RConfirmed t] HANDLE_MENU.
Proof.
  intros Hu He Hd Ht Hfree. unfold save_appointment.
  now rewrite Hu, Hd, Ht, He, Hfree.
Qed.

(** C2, at the failing input: Ana confirms by button the Friday 14:00
    that is already taken.  Nothing is inserted and the state is the
    menu, but the reply is the general "could not be scheduled, try again
    later" error; on the same table the e-mail path answers that the
    slot is no longer available. *)
Theorem save_appointment_conflict_reply :
  is_slot_available (appointments db_taken) two_pm
    (two_pm + timedelta_minutes 30) = false /\
  o_replies (save_appointment db_taken ud_staged 1001 confirm_appt) = [RErrorNotSaved] /\
  appointments (o_db (save_appointment db_taken ud_staged 1001 confirm_appt))
    = appointments db_taken /\
  o_next (save_appointment db_taken ud_staged 1001 confirm_appt) = HANDLE_MENU /\
  o_replies (handle_email_input db_taken ud_staged 1002 (py "luis@example.com"))
    = [RSlotUnavailable].
Proof. repeat split; vm_compute; reflexivity. Qed.



(** C3, the claim as stated fails: Luis, who has no address on file,
    sends the request as text from the menu; the handler returns the
    select-date state with the date buttons and stages nothing. *)
Lemma handle_menu_friday_request :
  no_email luis = true /\
  o_next (handle_menu no_similarity (ymd 2024 6 10) db_luis ud_menu 1002 friday_request)
    = SELECT_DATE /\
  ud_appointment_time
    (o_ud (handle_menu no_similarity (ymd 2024 6 10) db_luis ud_menu 1002 friday_request))
    = None /\
  ud_appointment_date
    (o_ud (handle_menu no_similarity (ymd 2024 6 10) db_luis ud_menu 1002 friday_request))
    = None.
Proof. repeat split; vm_compute; reflexivity. Qed.

Lemma friday_request_date now :
  parse_spanish_date now friday_request =
  Some (now + (if (4 - weekday now) mod 7 =? 0 then 7 else (4 - weekday now) mod 7)).
Proof.
  unfold parse_spanish_date.
  change (lower friday_request) with (py "quiero agendar para el viernes a las 2pm").
  reflexivity.
Qed.

(** C3, as amended: whoever sends the request as text, with or without
    an address on file, [handle_menu] sees the scheduling keyword, offers
    the next fourteen dates and returns the select-date state; it
    consults neither resolver, stages no slot and leaves the tables as
    they are.  The resolvers, on that text, give next Friday and 14:00. *)
Theorem handle_menu_friday_request_spec (ratio : str -> str -> Q) (now : date)
    (db : DB) (ud : UserData) (sender : Z) :
  handle_menu ratio now db ud sender friday_request = schedule_appointment now db ud /\
  o_next (handle_menu ratio now db ud sender friday_request) = SELECT_DATE /\
  o_replies (handle_menu ratio now db ud sender friday_request)
    = [RSelectDate (List.map (fun i => now + Z.of_nat i) (seq 1 14))] /\
  o_db (handle_menu ratio now db ud sender friday_request) = db /\
  ud_appointment_date (o_ud (handle_menu ratio now db ud sender friday_request))
    = ud_appointment_date ud /\
  ud_appointment_time (o_ud (handle_menu ratio now db ud sender friday_request))
    = ud_appointment_time ud /\
  (exists d, parse_spanish_date now friday_request = Some d /\ next_occurrence now 4 d) /\
  parse_spanish_time friday_request = Some (14, 0).
Proof.
  assert (H : handle_menu ratio now db ud sender friday_request
              = schedule_appointment now db ud).
  { unfold handle_menu. cbv zeta.
    change (lower friday_request) with (py "quiero agendar para el viernes a las 2pm").
    reflexivity. }
  rewrite H. repeat split.
  - eexists. split; [apply friday_request_date|]. apply weekday_next. lia.
Qed.

End Handlers.

(** ** Two commits on one table *)

Section TwoCommits.

Lemma appts_of_day_app l1 l2 day :
  appts_of_day (l1 ++ l2) day = appts_of_day l1 day ++ appts_of_day l2 day.
Proof. unfold appts_of_day. apply List.filter_app. Qed.

Lemma overlaps_some_app l1 l2 s e :
  overlaps_some (l1 ++ l2) s e = overlaps_some l1 s e || overlaps_some l2 s e.
Proof.
  induction l1 as [|a l1 IH]; cbn; [reflexivity|].
  destruct ((s <? a_end a) && (a_start a <? e)); [reflexivity | exact IH].
Qed.

Lemma is_slot_available_app l1 l2 s e :
  is_slot_available (l1 ++ l2) s e =
  is_slot_available l1 s e && is_slot_available l2 s e.
Proof.
  unfold is_slot_available.
  now rewrite appts_of_day_app, overlaps_some_app, negb_orb.
Qed.

(** A half-hour just booked blocks the overlapping half-hours of its day. *)
Lemma booked_blocks u ta tb :
  ranges_overlap ta tb -> date_of ta = date_of tb ->
  is_slot_available [new_appointment u ta] tb (tb + timedelta_minutes 30) = false.
Proof.
  intros [H1 H2] Hday. apply not_true_iff_false. rewrite is_slot_available_spec.
  intros H. apply (H (new_appointment u ta)); [now left | discriminate | |].
  - cbn. unfold ensure_tz. congruence.
  - unfold a_end, a_start, ensure_tz. cbn. unfold ensure_tz. lia.
Qed.




(** The appointments that [save_appointment] leaves are those of the
    check followed by the insert. *)
Lemma save_appointment_two_steps db ud sender user d t :
  users db !! sender = Some user -> no_email user = false ->
  ud_appointment_date ud = Some d -> ud_appointment_time ud = Some t ->
  let c0 := {| c_user := user; c_time := t; c_phase := Ready |} in
  let '(l1, c1) := call_step (appointments db) c0 in
  appointments (o_db (save_appointment db ud sender confirm_appt))
    = fst (call_step l1 c1).
Proof.
  intros Hu He Hd Ht. unfold call_step.
  cbn [c_phase c_time c_user set_phase fst snd].
  destruct (is_slot_available (appointments db) t (t + timedelta_minutes 30)) eqn:Hf.
  - now rewrite (save_appointment_books db ud sender user d t).
  - now rewrite (save_appointment_conflict db ud sender user d t).
Qed.

(** The same holds of [handle_email_input], once the address is saved. *)
Lemma handle_email_input_two_steps db ud sender user t message_text :
  valid_email (strip message_text) = true ->
  users db !! sender = Some user -> ud_appointment_time ud = Some t ->
  let c0 := {| c_user := with_email user (strip message_text); c_time := t;
               c_phase := Ready |} in
  let '(l1, c1) := call_step (appointments db) c0 in
  appointments (o_db (handle_email_input db ud sender message_text))
    = fst (call_step l1 c1).
Proof.
  intros Hv Hu Ht. unfold call_step, handle_email_input.
  cbn [c_phase c_time c_user set_phase fst snd].
  rewrite Hv, Hu, Ht. cbn [negb set_users appointments].
  destruct (is_slot_available (appointments db) t (t + timedelta_minutes 30));
    reflexivity.
Qed.




End TwoCommits.

(** ** Slots blocked from the eve *)

(** C4, the claim as stated fails: with business hours that start at
    midnight, the half-hour booked at 23:45 on Thursday is confirmed and
    overlaps Friday's first slot, yet that slot is listed as available. *)
Lemma available_slot_overlaps_eve :
  valid_hours cfg_midnight /\
  status late_thursday = CONFIRMED /\
  In first_slot_friday (daterange_slots cfg_midnight friday) /\
  overlaps first_slot_friday late_thursday /\
  In first_slot_friday (get_available_slots_from_db cfg_midnight [late_thursday] friday).
Proof.
  split; [unfold valid_hours; cbn; lia|].
  split; [reflexivity|].
  split; [vm_compute; left; reflexivity|].
  split; [unfold overlaps; split; vm_compute; reflexivity|].
  vm_compute; left; reflexivity.
Qed.

(** * Further properties of the code *)

(** ** Slots of a day: count and grid *)

Section SlotGrid.

Lemma daterange_loop_length fuel : forall cur step end_dt,
  0 < step ->
  (Z.to_nat ((end_dt - cur) / step) < fuel)%nat ->
  length (daterange_loop fuel cur step end_dt) = Z.to_nat ((end_dt - cur) / step).
Proof.
  induction fuel as [|fuel IH]; intros cur step end_dt Hs Hf; [lia|].
  cbn [daterange_loop].
  destruct (Z.leb_spec (cur + step) end_dt) as [Hc|Hc].
  - cbn [length].
    assert (Hd : (end_dt - (cur + step)) / step = (end_dt - cur) / step - 1).
    { replace (end_dt - (cur + step)) with ((end_dt - cur) + (-1) * step) by lia.
      rewrite Z.div_add by lia. lia. }
    assert (1 <= (end_dt - cur) / step) by (apply Z.div_le_lower_bound; lia).
    rewrite IH by lia. lia.
  - cbn [length].
    assert ((end_dt - cur) / step <= 0); [|lia].
    destruct (Z.le_gt_cases 0 (end_dt - cur)).
    + rewrite Z.div_small by lia. lia.
    + assert ((end_dt - cur) / step < 0) by (apply Z.div_lt_upper_bound; lia). lia.
Qed.

Lemma hours_in_half_hours (n : Z) : (n * usec_per_hour) / timedelta_minutes 30 = 2 * n.
Proof.
  replace (n * usec_per_hour) with ((2 * n) * timedelta_minutes 30)
    by (unfold usec_per_hour, timedelta_minutes; lia).
  apply Z.div_mul. discriminate.
Qed.

(** A business day has two slots for each hour between the configured
    hours, and none when the end hour is not after the start hour. *)
Theorem daterange_slots_length (cfg : Config) (d : date) :
  valid_hours cfg ->
  length (daterange_slots cfg d)
  = Z.to_nat (2 * (BUSINESS_HOURS_END cfg - BUSINESS_HOURS_START cfg)).
Proof.
  intros _. unfold daterange_slots, combine.
  set (S := BUSINESS_HOURS_START cfg). set (E := BUSINESS_HOURS_END cfg).
  replace (d * usec_per_day + E * usec_per_hour - (d * usec_per_day + S * usec_per_hour))
    with ((E - S) * usec_per_hour) by lia.
  rewrite hours_in_half_hours.
  rewrite daterange_loop_length.
  - replace (d * usec_per_day + E * usec_per_hour - (d * usec_per_day + S * usec_per_hour))
      with ((E - S) * usec_per_hour) by lia.
    now rewrite hours_in_half_hours.
  - apply step_pos.
  - replace (d * usec_per_day + E * usec_per_hour - (d * usec_per_day + S * usec_per_hour))
      with ((E - S) * usec_per_hour) by lia.
    rewrite hours_in_half_hours. lia.
Qed.

Lemma daterange_slots_length_witness :
  valid_hours cfg_default /\
  length (daterange_slots cfg_default friday) = 18%nat.
Proof.
  split.
  - unfold valid_hours; cbn; lia.
  - rewrite (daterange_slots_length cfg_default friday); [reflexivity|].
    unfold valid_hours; cbn; lia.
Defined.

Lemma slot_on_grid cfg d (i : nat) s :
  valid_hours cfg ->
  daterange_slots cfg d !! i = Some s ->
  date_of (slot_start s) = d /\
  hour_of (slot_start s) = BUSINESS_HOURS_START cfg + Z.of_nat i / 2 /\
  minute_of (slot_start s) = 30 * (Z.of_nat i mod 2) /\
  BUSINESS_HOURS_START cfg <= hour_of (slot_start s) < BUSINESS_HOURS_END cfg.
Proof.
  intros [[Hs0 Hs1] [He0 He1]] Hi.
  apply daterange_slots_lookup in Hi as (Hst & Hen & Hle).
  set (S := BUSINESS_HOURS_START cfg) in *. set (E := BUSINESS_HOURS_END cfg) in *.
  set (k := Z.of_nat i) in *.
  assert (Hk : 0 <= k) by lia.
  assert (HH : usec_per_hour = 3600000000) by reflexivity.
  assert (HD : usec_per_day = 86400000000) by reflexivity.
  assert (HM : usec_per_minute = 60000000) by reflexivity.
  assert (HT : timedelta_minutes 30 = 1800000000) by reflexivity.
  unfold combine in *.
  assert (Hoff : slot_start s = d * usec_per_day + (S * 3600000000 + k * 1800000000)) by lia.
  assert (Hlt : S * 3600000000 + k * 1800000000 + 1800000000 <= E * 3600000000) by lia.
  assert (Hdate : date_of (slot_start s) = d).
  { apply date_of_bounds. unfold combine, dtime_min, dtime_max. lia. }
  assert (Hmod : slot_start s mod usec_per_day = S * 3600000000 + k * 1800000000).
  { symmetry. apply (Z.mod_unique_pos _ _ d); lia. }
  assert (Hk2 : k = 2 * (k / 2) + k mod 2) by (apply Z.div_mod; lia).
  assert (Hm2 : 0 <= k mod 2 < 2) by (apply Z.mod_pos_bound; lia).
  assert (Hhour : hour_of (slot_start s) = S + k / 2).
  { unfold hour_of. rewrite Hmod, HH. symmetry.
    apply (Z.div_unique_pos _ _ _ ((k mod 2) * 1800000000)); lia. }
  assert (Hmin : minute_of (slot_start s) = 30 * (k mod 2)).
  { unfold minute_of. rewrite Hmod, HM.
    assert (Hq : (S * 3600000000 + k * 1800000000) / 60000000 = 60 * S + 30 * k).
    { symmetry. apply (Z.div_unique_pos _ _ _ 0); lia. }
    rewrite Hq. symmetry.
    apply (Z.mod_unique_pos _ _ (S + k / 2)); lia. }
  repeat split; try assumption; rewrite Hhour; lia.
Qed.

(** Every slot of a business day starts on that date, on the hour or the
    half hour, at an hour from the start hour up to but not including the
    end hour. *)
Theorem daterange_slots_on_grid (cfg : Config) (d : date) (s : Slot) :
  valid_hours cfg ->
  In s (daterange_slots cfg d) ->
  date_of (slot_start s) = d /\
  (minute_of (slot_start s) = 0 \/ minute_of (slot_start s) = 30) /\
  BUSINESS_HOURS_START cfg <= hour_of (slot_start s) < BUSINESS_HOURS_END cfg.
Proof.
  intros Hv Hin. apply list_elem_of_In, list_elem_of_lookup in Hin as [i Hi].
  destruct (slot_on_grid cfg d i s Hv Hi) as (Hd & _ & Hm & Hh).
  split; [exact Hd|]. split; [|exact Hh].
  assert (0 <= Z.of_nat i mod 2 < 2) by (apply Z.mod_pos_bound; lia). lia.
Qed.

Lemma daterange_slots_on_grid_witness :
  valid_hours cfg_default /\
  In {| slot_start := combine friday (14 * usec_per_hour + 30 * usec_per_minute);
        slot_end := combine friday (15 * usec_per_hour) |}
     (daterange_slots cfg_default friday) /\
  (date_of (combine friday (14 * usec_per_hour + 30 * usec_per_minute)) = friday /\
   (minute_of (combine friday (14 * usec_per_hour + 30 * usec_per_minute)) = 0 \/
    minute_of (combine friday (14 * usec_per_hour + 30 * usec_per_minute)) = 30) /\
   8 <= hour_of (combine friday (14 * usec_per_hour + 30 * usec_per_minute)) < 17).
Proof.
  assert (Hv : valid_hours cfg_default) by (unfold valid_hours; cbn; lia).
  assert (Hin : In {| slot_start := combine friday (14 * usec_per_hour + 30 * usec_per_minute);
                      slot_end := combine friday (15 * usec_per_hour) |}
                   (daterange_slots cfg_default friday)).
  { vm_compute. do 13 right. left. reflexivity. }
  split; [exact Hv|]. split; [exact Hin|].
  exact (daterange_slots_on_grid cfg_default friday _ Hv Hin).
Defined.

End SlotGrid.

(** ** Availability and the table invariant *)

Section BookingInvariant.

(** [is_slot_available] answers yes exactly when no row that starts on
    the day of the requested start, and is not cancelled, overlaps the
    requested range; rows of other days and cancelled rows are never
    looked at. *)
Theorem is_slot_available_iff (appts : list Appointment) (start_dt end_dt : datetime) :
  is_slot_available appts start_dt end_dt = true <->
  forall a, In a appts -> status a <> CANCELLED ->
    date_of (appointment_date a) = date_of start_dt ->
    ~ (start_dt < a_end a /\ end_dt > a_start a).
Proof. apply is_slot_available_spec. Qed.

Lemma is_slot_available_one u t s e :
  is_slot_available [new_appointment u t] s e
  = negb ((date_of t =? date_of s) && (s <? t + timedelta_minutes 30) && (t <? e)).
Proof.
  unfold is_slot_available, appts_of_day, ensure_tz. cbn [List.filter].
  cbn [appointment_date new_appointment status is_cancelled negb].
  rewrite andb_true_r.
  destruct (Z.eqb_spec (date_of t) (date_of s)) as [Hd|Hd].
  - apply date_of_bounds in Hd. destruct Hd as [H1 H2].
    apply Z.leb_le in H1, H2. rewrite H1, H2. cbn [andb overlaps_some].
    unfold a_end, a_start, ensure_tz. cbn [appointment_date duration_minutes new_appointment].
    now destruct ((s <? t + timedelta_minutes 30) && (t <? e)).
  - cbn [andb].
    destruct ((combine (date_of s) dtime_min <=? t) && (t <=? combine (date_of s) dtime_max)) eqn:Hb.
    + exfalso. apply Hd. apply date_of_bounds.
      apply andb_true_iff in Hb as [H1 H2]. apply Z.leb_le in H1, H2. lia.
    + reflexivity.
Qed.

(** What a booking changes: after the half-hour at [t] is inserted, a
    range is available exactly when it was before and it is not a range
    that starts on the day of [t] and overlaps [t, t + 30min). *)
Theorem booking_blocks_exactly (appts : list Appointment) (u : User)
    (t s e : datetime) :
  is_slot_available (appts ++ [new_appointment u t]) s e
  = is_slot_available appts s e
    && negb ((date_of t =? date_of s) && (s <? t + timedelta_minutes 30) && (t <? e)).
Proof. now rewrite is_slot_available_app, is_slot_available_one. Qed.

(** The list of available slots and the re-check agree: a slot of the
    day is listed exactly when [is_slot_available] accepts its range. *)
Theorem listed_iff_recheck (cfg : Config) (appts : list Appointment) (d : date)
    (s : Slot) :
  valid_hours cfg ->
  In s (daterange_slots cfg d) ->
  (In s (get_available_slots_from_db cfg appts d) <->
   is_slot_available appts (slot_start s) (slot_end s) = true).
Proof.
  intros Hv Hin.
  assert (Hd : date_of (slot_start s) = d).
  { apply list_elem_of_In, list_elem_of_lookup in Hin as [i Hi].
    now destruct (slot_on_grid cfg d i s Hv Hi). }
  rewrite available_slots_In, is_slot_available_spec, Hd. unfold overlaps. tauto.
Qed.

Lemma listed_iff_recheck_witness :
  valid_hours cfg_default /\
  In {| slot_start := two_pm; slot_end := two_pm + timedelta_minutes 30 |}
     (daterange_slots cfg_default friday) /\
  (In {| slot_start := two_pm; slot_end := two_pm + timedelta_minutes 30 |}
      (get_available_slots_from_db cfg_default (appointments db_taken) friday) <->
   is_slot_available (appointments db_taken) two_pm (two_pm + timedelta_minutes 30) = true).
Proof.
  assert (Hv : valid_hours cfg_default) by (unfold valid_hours; cbn; lia).
  assert (Hin : In {| slot_start := two_pm; slot_end := two_pm + timedelta_minutes 30 |}
                   (daterange_slots cfg_default friday)).
  { vm_compute. do 12 right. left. reflexivity. }
  split; [exact Hv|]. split; [exact Hin|].
  exact (listed_iff_recheck cfg_default (appointments db_taken) friday _ Hv Hin).
Defined.

Lemma no_double_booking_snoc appts u t :
  no_double_booking appts ->
  is_slot_available appts t (t + timedelta_minutes 30) = true ->
  no_double_booking (appts ++ [new_appointment u t]).
Proof.
  intros Hinv Hfree i j a b Hij Ha Hb Hla Hlb Hday Hclash.
  apply lookup_app_Some in Hb as [Hb|[Hlen Hb]].
  - assert (Ha' : appts !! i = Some a).
    { apply lookup_app_Some in Ha as [Ha|[Hlen _]]; [exact Ha|].
      apply lookup_lt_Some in Hb. lia. }
    exact (Hinv i j a b Hij Ha' Hb Hla Hlb Hday Hclash).
  - apply list_lookup_singleton_Some in Hb as [Hj <-].
    apply lookup_app_Some in Ha as [Ha|[Hlen' _]]; [|lia].
    rewrite is_slot_available_spec in Hfree.
    apply (Hfree a); [apply list_elem_of_In, list_elem_of_lookup; eauto | exact Hla | |].
    + unfold a_start, ensure_tz in Hday. cbn in Hday. exact Hday.
    + destruct Hclash as [H1 H2]. unfold a_end, a_start, ensure_tz in *. cbn in *. lia.
Qed.

(** Both commit handlers keep the table free of double bookings: if no
    two live rows of one day overlap before [save_appointment] or
    [handle_email_input] runs, none do afterwards, whatever the input. *)
Theorem handlers_keep_no_double_booking (db : DB) (ud : UserData) (sender : Z)
    (data : ConfirmData) (message_text : str) :
  no_double_booking (appointments db) ->
  no_double_booking (appointments (o_db (save_appointment db ud sender data))) /\
  no_double_booking (appointments (o_db (handle_email_input db ud sender message_text))).
Proof.
  intros Hinv. split.
  - unfold save_appointment.
    destruct data; [|exact Hinv].
    destruct (users db !! sender) as [user|]; [|exact Hinv].
    destruct (ud_appointment_date ud) as [d|]; [|exact Hinv].
    destruct (ud_appointment_time ud) as [t|]; [|exact Hinv].
    destruct (no_email user); [exact Hinv|].
    destruct (is_slot_available (appointments db) t (t + timedelta_minutes 30)) eqn:Hf;
      cbn; [|exact Hinv].
    now apply no_double_booking_snoc.
  - unfold handle_email_input.
    destruct (valid_email (strip message_text)); cbn [negb]; [|exact Hinv].
    destruct (users db !! sender) as [user|]; [|exact Hinv].
    cbn [set_users appointments].
    destruct (ud_appointment_time ud) as [t|]; [|exact Hinv].
    destruct (is_slot_available (appointments db) t (t + timedelta_minutes 30)) eqn:Hf;
      cbn; [|exact Hinv].
    now apply no_double_booking_snoc.
Qed.

Lemma handlers_keep_no_double_booking_witness :
  no_double_booking (appointments db_taken) /\
  no_double_booking
    (appointments (o_db (save_appointment db_taken ud_staged 1002 confirm_appt))) /\
  no_double_booking
    (appointments (o_db (handle_email_input db_taken ud_staged 1002 (py "luis@example.com")))).
Proof.
  assert (H0 : no_double_booking (appointments db_taken)).
  { intros i j a b Hij Ha Hb. cbn in Ha, Hb.
    destruct i as [|i]; [|destruct i; discriminate Ha].
    destruct j as [|j]; [lia|]. destruct j; discriminate Hb. }
  split; [exact H0|].
  exact (handlers_keep_no_double_booking db_taken ud_staged 1002 confirm_appt
           (py "luis@example.com") H0).
Defined.

(** One after the other, two users cannot take overlapping half-hours of
    a day: once [save_appointment] has booked [t] for the first, a second
    confirmation for an overlapping [t'] inserts nothing and is answered
    with the error text, and an e-mail completion for [t'] inserts
    nothing and is answered that the slot is no longer available. *)
Theorem second_booking_refused (db : DB) (ud1 ud2 : UserData) (s1 s2 : Z)
    (u1 u2 : User) (d1 d2 : date) (t t' : datetime) (message_text : str) :
  users db !! s1 = Some u1 -> no_email u1 = false ->
  ud_appointment_date ud1 = Some d1 -> ud_appointment_time ud1 = Some t ->
  is_slot_available (appointments db) t (t + timedelta_minutes 30) = true ->
  users db !! s2 = Some u2 ->
  ud_appointment_date ud2 = Some d2 -> ud_appointment_time ud2 = Some t' ->
  ranges_overlap t t' -> date_of t = date_of t' ->
  let db1 := o_db (save_appointment db ud1 s1 confirm_appt) in
  appointments db1 = appointments db ++ [new_appointment u1 t] /\
  (no_email u2 = false ->
   o_replies (save_appointment db1 ud2 s2 confirm_appt) = [RErrorNotSaved] /\
   appointments (o_db (save_appointment db1 ud2 s2 confirm_appt)) = appointments db1) /\
  (valid_email (strip message_text) = true ->
   o_replies (handle_email_input db1 ud2 s2 message_text) = [RSlotUnavailable] /\
   appointments (o_db (handle_email_input db1 ud2 s2 message_text)) = appointments db1).
Proof.
  intros Hu1 He1 Hd1 Ht1 Hfree Hu2 Hd2 Ht2 Hov Hday. cbv zeta.
  rewrite (save_appointment_books db ud1 s1 u1 d1 t Hu1 He1 Hd1 Ht1 Hfree).
  cbn [o_db out set_appointments appointments].
  set (db1 := set_appointments db (appointments db ++ [new_appointment u1 t])).
  assert (Hbusy : is_slot_available (appointments db1) t' (t' + timedelta_minutes 30) = false).
  { unfold db1. cbn [set_appointments appointments].
    rewrite is_slot_available_app, (booked_blocks u1 t t' Hov Hday). apply andb_false_r. }
  assert (Hu2' : users db1 !! s2 = Some u2) by exact Hu2.
  split; [reflexivity|]. split.
  - intros He2.
    rewrite (save_appointment_conflict db1 ud2 s2 u2 d2 t' Hu2' He2 Hd2 Ht2 Hbusy).
    split; reflexivity.
  - intros Hv. unfold handle_email_input. rewrite Hv, Hu2', Ht2. cbn [negb].
    cbn [set_users appointments]. rewrite Hbusy. cbn. split; reflexivity.
Qed.

Lemma second_booking_refused_witness :
  is_slot_available (appointments db_taken) (two_pm + timedelta_minutes 30)
    (two_pm + timedelta_minutes 30 + timedelta_minutes 30) = true /\
  ranges_overlap (two_pm + timedelta_minutes 30) (two_pm + timedelta_minutes 30) /\
  appointments (o_db (save_appointment db_taken
     {| ud_appointment_date := Some friday;
        ud_appointment_time := Some (two_pm + timedelta_minutes 30);
        ud_await_email := false; ud_current_state := None; ud_prev_state := None |}
     1001 confirm_appt))
  = appointments db_taken ++ [new_appointment ana (two_pm + timedelta_minutes 30)].
Proof.
  assert (Hf : is_slot_available (appointments db_taken) (two_pm + timedelta_minutes 30)
                 (two_pm + timedelta_minutes 30 + timedelta_minutes 30) = true)
    by (vm_compute; reflexivity).
  assert (Ho : ranges_overlap (two_pm + timedelta_minutes 30) (two_pm + timedelta_minutes 30))
    by (split; vm_compute; reflexivity).
  assert (Hu1 : users db_taken !! 1001 = Some ana) by (vm_compute; reflexivity).
  assert (Hu2 : users db_taken !! 1002 = Some luis) by (vm_compute; reflexivity).
  split; [exact Hf|]. split; [exact Ho|].
  exact (proj1 (second_booking_refused db_taken
    {| ud_appointment_date := Some friday;
       ud_appointment_time := Some (two_pm + timedelta_minutes 30);
       ud_await_email := false; ud_current_state := None; ud_prev_state := None |}
    {| ud_appointment_date := Some friday;
       ud_appointment_time := Some (two_pm + timedelta_minutes 30);
       ud_await_email := false; ud_current_state := None; ud_prev_state := None |}
    1001 1002 ana luis friday friday (two_pm + timedelta_minutes 30)
    (two_pm + timedelta_minutes 30) (py "luis@example.com")
    Hu1 eq_refl eq_refl eq_refl Hf Hu2 eq_refl eq_refl Ho eq_refl)).
Defined.

End BookingInvariant.

(** ** Resolver and slot choice: ranges and failures *)

Section ResolverRanges.

(** [parse_spanish_date] never returns a past date nor one more than a
    week ahead. *)
Theorem parse_spanish_date_range (now : date) (text : str) (d : date) :
  parse_spanish_date now text = Some d -> now <= d <= now + 7.
Proof.
  intros Hr. pose proof (parse_date_priority_holds now text) as H.
  unfold parse_date_priority in H. cbv zeta in H. rewrite Hr in H.
  destruct (contains (py "pasado mañana") (lower text)
            || contains (py "pasado manana") (lower text)); [injection H; lia|].
  destruct (contains (py "mañana") (lower text)
            || contains (py "manana") (lower text)); [injection H; lia|].
  destruct (contains (py "hoy") (lower text)); [injection H; lia|].
  destruct H as (w & _ & _ & Hlt). lia.
Qed.

Lemma parse_spanish_date_range_witness :
  parse_spanish_date (ymd 2024 6 10) (py "el lunes") = Some (ymd 2024 6 17) /\
  ymd 2024 6 10 <= ymd 2024 6 17 <= ymd 2024 6 10 + 7.
Proof.
  assert (H : parse_spanish_date (ymd 2024 6 10) (py "el lunes") = Some (ymd 2024 6 17))
    by (vm_compute; reflexivity).
  split; [exact H|].
  exact (parse_spanish_date_range _ _ _ H).
Defined.

(** With no available slot on the date [pick_best_slot_for_datetime]
    returns none whatever the time; with one, a time that is no time of
    day (hour outside 0..23 or minute outside 0..59) makes it raise
    [ValueError] instead of returning. *)
Theorem pick_best_slot_bad_time (cfg : Config) (appts : list Appointment)
    (d : date) (h m : Z) :
  (get_available_slots_from_db cfg appts d = [] ->
   pick_best_slot_for_datetime cfg appts d h m = Return None) /\
  (get_available_slots_from_db cfg appts d <> [] ->
   ~ (0 <= h <= 23 /\ 0 <= m <= 59) ->
   pick_best_slot_for_datetime cfg appts d h m = Raise ValueError).
Proof.
  unfold pick_best_slot_for_datetime. split.
  - intros ->. reflexivity.
  - intros Hne Hbad.
    destruct (get_available_slots_from_db cfg appts d) as [|s rest]; [contradiction|].
    unfold dtime.
    destruct (Z.leb_spec 0 h), (Z.leb_spec h 23), (Z.leb_spec 0 m), (Z.leb_spec m 59);
      cbn [andb]; try reflexivity.
    exfalso. apply Hbad. lia.
Qed.

Lemma pick_best_slot_bad_time_witness :
  get_available_slots_from_db cfg_default [] friday <> [] /\
  ~ (0 <= 99 <= 23 /\ 0 <= 0 <= 59) /\
  parse_spanish_time (py "99 pm") = Some (99, 0) /\
  pick_best_slot_for_datetime cfg_default [] friday 99 0 = Raise ValueError.
Proof.
  assert (Hne : get_available_slots_from_db cfg_default [] friday <> [])
    by (vm_compute; discriminate).
  assert (Hbad : ~ (0 <= 99 <= 23 /\ 0 <= 0 <= 59)) by lia.
  split; [exact Hne|]. split; [exact Hbad|]. split; [vm_compute; reflexivity|].
  exact (proj2 (pick_best_slot_bad_time cfg_default [] friday 99 0) Hne Hbad).
Defined.

Lemma pick_best_slot_listed cfg appts d h m s :
  pick_best_slot_for_datetime cfg appts d h m = Return (Some s) ->
  In s (get_available_slots_from_db cfg appts d).
Proof.
  unfold pick_best_slot_for_datetime.
  set (avail := get_available_slots_from_db cfg appts d).
  destruct avail as [|s0 rest]; [discriminate|].
  destruct (dtime h m) as [tm|]; [|discriminate].
  match goal with |- context [List.filter ?f (s0 :: rest)] =>
    destruct (List.filter f (s0 :: rest)) as [|e es] eqn:Hfe end.
  - match goal with |- context [List.filter ?f (s0 :: rest)] =>
      destruct (List.filter f (s0 :: rest)) as [|a after] eqn:Hfa end.
    + intros Hr.
      assert (Hl : last (sort_by_start (s0 :: rest)) = Some s) by congruence.
      assert (Hin : In s (sort_by_start (s0 :: rest))).
      { apply list_elem_of_In. apply last_Some_elem_of. exact Hl. }
      now apply (proj1 (sort_by_start_In _ _)) in Hin.
    + intros Hr.
      assert (Hh : head (sort_by_start (a :: after)) = Some s) by congruence.
      assert (Hin : In s (sort_by_start (a :: after))).
      { apply list_elem_of_In. apply head_Some_elem_of. exact Hh. }
      apply (proj1 (sort_by_start_In _ _)) in Hin. rewrite <- Hfa in Hin.
      now apply filter_In in Hin.
  - intros [= <-].
    assert (Hin : In e (e :: es)) by now left.
    rewrite <- Hfe in Hin. now apply filter_In in Hin.
Qed.

(** The slot that [pick_best_slot_for_datetime] returns is a half-hour
    of the requested date that passes the re-check of
    [is_slot_available] on the same table. *)
Theorem pick_best_slot_passes_recheck (cfg : Config) (appts : list Appointment)
    (d : date) (h m : Z) (s : Slot) :
  valid_hours cfg ->
  pick_best_slot_for_datetime cfg appts d h m = Return (Some s) ->
  date_of (slot_start s) = d /\
  slot_end s = slot_start s + timedelta_minutes 30 /\
  is_slot_available appts (slot_start s) (slot_start s + timedelta_minutes 30) = true.
Proof.
  intros Hv Hr. apply pick_best_slot_listed in Hr.
  assert (Hday : In s (daterange_slots cfg d)) by (apply available_slots_In in Hr; tauto).
  pose proof Hday as Hi. apply list_elem_of_In, list_elem_of_lookup in Hi as [i Hi].
  destruct (slot_on_grid cfg d i s Hv Hi) as (Hd & _).
  apply daterange_slots_lookup in Hi as (_ & He & _).
  split; [exact Hd|]. split; [exact He|]. rewrite <- He.
  assert (Hiff : In s (get_available_slots_from_db cfg appts d) <->
                 is_slot_available appts (slot_start s) (slot_end s) = true).
  { rewrite available_slots_In, is_slot_available_spec, Hd. unfold overlaps. tauto. }
  now apply Hiff.
Qed.

Lemma pick_best_slot_passes_recheck_witness :
  valid_hours cfg_default /\
  pick_best_slot_for_datetime cfg_default (appointments db_taken) friday 14 0
    = Return (Some {| slot_start := two_pm + timedelta_minutes 30;
                      slot_end := two_pm + timedelta_minutes 30 + timedelta_minutes 30 |}) /\
  is_slot_available (appointments db_taken) (two_pm + timedelta_minutes 30)
    (two_pm + timedelta_minutes 30 + timedelta_minutes 30) = true.
Proof.
  assert (Hv : valid_hours cfg_default) by (unfold valid_hours; cbn; lia).
  assert (Hr : pick_best_slot_for_datetime cfg_default (appointments db_taken) friday 14 0
    = Return (Some {| slot_start := two_pm + timedelta_minutes 30;
                      slot_end := two_pm + timedelta_minutes 30 + timedelta_minutes 30 |}))
    by (vm_compute; reflexivity).
  split; [exact Hv|]. split; [exact Hr|].
  exact (proj2 (proj2 (pick_best_slot_passes_recheck cfg_default (appointments db_taken)
                         friday 14 0 _ Hv Hr))).
Defined.

End ResolverRanges.

(** ** The scorer only answers with active rows *)

(** Whatever the similarity, an answer of [best_faq_answer] is a row of
    the table that is active, and its total is positive. *)
Theorem best_faq_answer_active (ratio : str -> str -> Q) (faq_table : list FAQ)
    (query : str) (f : FAQ) :
  best_faq_answer ratio faq_table query = Some f ->
  In f faq_table /\ is_active f = true /\
  (0 < faq_score ratio (lower query) (query_tokens (lower query)) f)%Q.
Proof.
  unfold best_faq_answer. destruct query as [|c query]; [discriminate|].
  set (text := lower (c :: query)). set (tokens := query_tokens text).
  destruct (bool_decide (tokens = ∅)); [discriminate|].
  assert (Hinit : loop_inv ratio text tokens [] None 0%Q).
  { split; [reflexivity|]. intros j g Hj. rewrite lookup_nil in Hj. discriminate. }
  pose proof (faq_loop_inv ratio text tokens (List.filter is_active faq_table)
                [] None 0%Q Hinit) as Hinv.
  cbn [app] in Hinv.
  destruct (faq_loop ratio text tokens (List.filter is_active faq_table) None 0)
    as [best bs].
  cbn [fst snd] in Hinv. destruct best as [b|]; [|discriminate].
  destruct Hinv as (-> & Hpos & i & Hi & _).
  destruct (Qle_bool 3 (faq_score ratio text tokens b)
            || Qle_bool (35 # 100) (ratio text (lower (question b)))); [|discriminate].
  intros [= <-].
  assert (Hin : In b (List.filter is_active faq_table)).
  { apply list_elem_of_In, list_elem_of_lookup. eauto. }
  apply filter_In in Hin as [Hin Hact]. tauto.
Qed.

Lemma best_faq_answer_active_witness :
  best_faq_answer no_similarity [faq_price; faq_hours] (py "Horario de atención")
    = Some faq_hours /\
  is_active faq_hours = true.
Proof.
  assert (H : best_faq_answer no_similarity [faq_price; faq_hours]
                (py "Horario de atención") = Some faq_hours)
    by (vm_compute; reflexivity).
  split; [exact H|].
  exact (proj1 (proj2 (best_faq_answer_active _ _ _ _ H))).
Defined.

(** ** Text and voice handlers *)

Section MenuProperties.

Variable ratio : str -> str -> Q.

Lemma lower_cp_idem c : lower_cp (lower_cp c) = lower_cp c.
Proof.
  unfold lower_cp.
  destruct (is_upper_ascii c) eqn:Hu;
    [|destruct (in_range 192 222 c && negb (c =? 215)%N) eqn:Hl].
  all: try rewrite Hu; try rewrite Hl; try reflexivity.
  all: destruct (is_upper_ascii (c + 32)%N) eqn:Hu';
    [|destruct (in_range 192 222 (c + 32)%N && negb (c + 32 =? 215)%N) eqn:Hl'];
    try reflexivity; exfalso.
  all: unfold is_upper_ascii, in_range in *;
    rewrite ?andb_true_iff, ?andb_false_iff, ?negb_true_iff, ?negb_false_iff,
            ?N.leb_le, ?N.leb_gt, ?N.eqb_eq, ?N.eqb_neq in *; lia.
Qed.

Lemma lower_idem s : lower (lower s) = lower s.
Proof.
  unfold lower. rewrite List.map_map. apply List.map_ext. intros c. apply lower_cp_idem.
Qed.

Lemma any_in_true ws w t : In w ws -> contains w t = true -> any_in ws t = true.
Proof.
  intros Hin Hc. unfold any_in. apply existsb_exists. now exists w.
Qed.

(** A text message never books: [handle_menu] leaves the users, the
    appointments, the FAQ rows and the staged date and time as they are,
    logs at most the one question it received, and returns the menu,
    select-date, FAQ or contact state. *)
Theorem handle_menu_frame (now : date) (db : DB) (ud : UserData) (sender : Z)
    (message_text : str) :
  let o := handle_menu ratio now db ud sender message_text in
  users (o_db o) = users db /\
  appointments (o_db o) = appointments db /\
  faqs (o_db o) = faqs db /\
  (user_questions (o_db o) = user_questions db \/
   user_questions (o_db o) =
     user_questions db ++ [{| uq_telegram_id := sender;
                              question_text := lower message_text;
                              source := from_text |}]) /\
  ud_appointment_date (o_ud o) = ud_appointment_date ud /\
  ud_appointment_time (o_ud o) = ud_appointment_time ud /\
  ud_await_email (o_ud o) = ud_await_email ud /\
  (o_next o = HANDLE_MENU \/ o_next o = SELECT_DATE \/
   o_next o = HANDLE_FAQ \/ o_next o = HANDLE_CONTACT).
Proof.
  cbv zeta. unfold handle_menu. cbv zeta.
  set (text := lower message_text).
  match goal with |- context [negb (any_in ?ks text)] => destruct (negb (any_in ks text)) end.
  - destruct (pricing_answer text); [cbn; tauto|].
    destruct (smalltalk_answer text); [cbn; tauto|].
    destruct (services_answer text); [cbn; tauto|].
    destruct (renewal_info_answer text); [cbn; tauto|].
    cbn [add_question faqs].
    destruct (best_faq_answer ratio (faqs db) text); cbn; tauto.
  - destruct (contains (py "agendar") text || contains (py "cita") text); [cbn; tauto|].
    destruct (contains (py "pregunta") text || contains (py "faq") text); [cbn; tauto|].
    destruct (contains (py "contacto") text || contains (py "ayuda") text); [cbn; tauto|].
    destruct (contains (py "acerca") text || contains (py "authenology") text); cbn; tauto.
Qed.

(** A text that says "agendar" or "cita" always opens the date
    selection, whatever else it says: the scheduling words win over the
    price, small-talk, service, renewal and FAQ answers. *)
Theorem handle_menu_scheduling_first (now : date) (db : DB) (ud : UserData)
    (sender : Z) (message_text : str) :
  contains (py "agendar") (lower message_text) = true \/
  contains (py "cita") (lower message_text) = true ->
  handle_menu ratio now db ud sender message_text = schedule_appointment now db ud.
Proof.
  intros Hk. unfold handle_menu. cbv zeta. set (text := lower message_text) in *.
  match goal with |- context [negb (any_in ?ks text)] =>
    assert (Hany : any_in ks text = true) end.
  { destruct Hk as [Hk|Hk].
    - apply (any_in_true _ (py "agendar")); [now left | exact Hk].
    - apply (any_in_true _ (py "cita")); [right; now left | exact Hk]. }
  rewrite Hany. cbn [negb].
  destruct Hk as [-> | ->]; [reflexivity | now rewrite orb_true_r].
Qed.

Lemma pricing_answer_vale t :
  contains (py "vale") (lower t) = true ->
  exists p, pricing_answer t = Some (RPrice p).
Proof.
  intros Hv. unfold pricing_answer. destruct t as [|c t']; [discriminate Hv|].
  set (lt := lower (c :: t')) in *.
  match goal with |- context [negb (any_in ?ws lt)] =>
    assert (Hany : any_in ws lt = true)
      by (apply (any_in_true _ (py "vale")); [do 4 right; now left | exact Hv])
  end.
  rewrite Hany. cbn [negb].
  repeat match goal with
         | |- context [if ?c then _ else _] => destruct c; [eexists; reflexivity|]
         end.
  eexists; reflexivity.
Qed.

(** "vale" is both a price trigger and an acknowledgement of the small
    talk; the price answer is tried first, so a text with "vale" and no
    menu keyword is always answered with prices and never as small talk. *)
Theorem handle_menu_vale_is_price (now : date) (db : DB) (ud : UserData)
    (sender : Z) (message_text : str) :
  contains (py "vale") (lower message_text) = true ->
  any_in (List.map py [ "agendar"; "cita"; "pregunta"; "faq"; "contacto"; "ayuda";
                        "acerca"; "authenology" ]%string) (lower message_text) = false ->
  exists p,
    handle_menu ratio now db ud sender message_text
    = out db ud [RPrice p; RWasUseful] HANDLE_MENU.
Proof.
  intros Hv Hk. unfold handle_menu. cbv zeta.
  rewrite Hk. cbn [negb].
  rewrite <- lower_idem in Hv.
  destruct (pricing_answer_vale _ Hv) as [p ->]. now exists p.
Qed.

(** A voice message never books and never opens the date selection:
    [handle_voice_message] returns the menu state, leaves the users, the
    appointments and the conversation data as they are, logs each
    transcript that is not empty, and answers with a price, service,
    renewal, FAQ or support text. *)
Theorem handle_voice_message_frame (db : DB) (ud : UserData) (sender : Z)
    (transcript : str) :
  let o := handle_voice_message ratio db ud sender transcript in
  o_next o = HANDLE_MENU /\
  o_ud o = ud /\
  users (o_db o) = users db /\
  appointments (o_db o) = appointments db /\
  user_questions (o_db o) =
    match transcript with
    | [] => user_questions db
    | _ => user_questions db ++ [{| uq_telegram_id := sender;
                                    question_text := transcript;
                                    source := from_voice |}]
    end /\
  forallb (fun r => negb (is_select_date r)) (o_replies o) = true.
Proof.
  cbv zeta. unfold handle_voice_message.
  destruct transcript as [|c tr]; [cbn; tauto|].
  set (text := c :: tr).
  assert (Hp : forall r, pricing_answer text = Some r -> is_select_date r = false).
  { unfold pricing_answer. intros r. unfold text at 1.
    repeat match goal with
           | |- context [if ?c then _ else _] => destruct c
           end; intros [= <-]; reflexivity. }
  assert (Hs : forall r, services_answer text = Some r -> is_select_date r = false).
  { unfold services_answer. intros r. unfold text at 1.
    destruct (negb _); intros [= <-]; reflexivity. }
  assert (Hr : forall r, renewal_info_answer text = Some r -> is_select_date r = false).
  { unfold renewal_info_answer. intros r. unfold text at 1.
    destruct (negb _); intros [= <-]; reflexivity. }
  destruct (pricing_answer text) as [pa|] eqn:Epa.
  { cbn. rewrite (Hp pa eq_refl). tauto. }
  destruct (services_answer text) as [sa|] eqn:Esa.
  { cbn. rewrite (Hs sa eq_refl). tauto. }
  destruct (renewal_info_answer text) as [ra|] eqn:Era.
  { cbn. rewrite (Hr ra eq_refl). tauto. }
  cbn [add_question faqs].
  destruct (best_faq_answer ratio (faqs db) text); cbn; tauto.
Qed.

End MenuProperties.

Lemma handle_menu_scheduling_first_witness :
  contains (py "cita") (lower (py "Precio de la cita")) = true /\
  pricing_answer (lower (py "Precio de la cita")) = Some (RPrice None) /\
  o_next (handle_menu no_similarity friday db_luis ud_menu 1002 (py "Precio de la cita")) = SELECT_DATE.
Proof.
  assert (Hc : contains (py "cita") (lower (py "Precio de la cita")) = true)
    by (vm_compute; reflexivity).
  split; [exact Hc|]. split; [vm_compute; reflexivity|].
  rewrite (handle_menu_scheduling_first no_similarity friday db_luis ud_menu 1002
             (py "Precio de la cita") (or_intror Hc)).
  reflexivity.
Defined.

Lemma handle_menu_vale_is_price_witness :
  contains (py "vale") (lower (py "Vale")) = true /\
  smalltalk_answer (lower (py "Vale")) = Some (RSmalltalk Okay) /\
  exists p,
    handle_menu no_similarity friday db_luis ud_menu 1002 (py "Vale")
    = out db_luis ud_menu [RPrice p; RWasUseful] HANDLE_MENU.
Proof.
  assert (Hc : contains (py "vale") (lower (py "Vale")) = true) by (vm_compute; reflexivity).
  split; [exact Hc|]. split; [vm_compute; reflexivity|].
  apply (handle_menu_vale_is_price no_similarity friday db_luis ud_menu 1002 (py "Vale") Hc).
  vm_compute; reflexivity.
Defined.

(** ** The dates offered for an appointment *)

Section OfferedDates.

Lemma weekday_shift (now k : Z) : weekday (now + k) = (weekday now + k) mod 7.
Proof. unfold weekday. Z.div_mod_to_equations. lia. Qed.

Lemma filter_map_length {A B} (f : B -> bool) (g : A -> B) l :
  length (List.filter f (List.map g l)) = length (List.filter (fun x => f (g x)) l).
Proof.
  induction l as [|x l IH]; cbn; [reflexivity|].
  destruct (f (g x)); cbn; now rewrite IH.
Qed.

Lemma two_of_each_weekday (m w : Z) :
  0 <= m < 7 -> 0 <= w < 7 ->
  length (List.filter (fun k : nat => (m + Z.of_nat k) mod 7 =? w) (seq 1 14)) = 2%nat.
Proof.
  intros Hm Hw.
  assert (Hcm : m = 0 \/ m = 1 \/ m = 2 \/ m = 3 \/ m = 4 \/ m = 5 \/ m = 6) by lia.
  assert (Hcw : w = 0 \/ w = 1 \/ w = 2 \/ w = 3 \/ w = 4 \/ w = 5 \/ w = 6) by lia.
  clear Hm Hw.
  destruct Hcm as [->|[->|[->|[->|[->|[->| ->]]]]]];
    destruct Hcw as [->|[->|[->|[->|[->|[->| ->]]]]]];
    vm_compute; reflexivity.
Qed.

(** [schedule_appointment] offers the fourteen days that follow today,
    in order and without today; they hold every day of the week exactly
    twice, Saturdays and Sundays included. *)
Theorem schedule_appointment_dates (now : date) (db : DB) (ud : UserData) :
  exists dates,
    schedule_appointment now db ud
    = out db (set_current_state ud SELECT_DATE) [RSelectDate dates] SELECT_DATE /\
    length dates = 14%nat /\
    (forall (i : nat) d, dates !! i = Some d -> d = now + 1 + Z.of_nat i) /\
    (forall w, 0 <= w < 7 -> count_weekday w dates = 2%nat).
Proof.
  unfold schedule_appointment.
  exists (List.map (fun i => now + Z.of_nat i) (seq 1 14)).
  split; [reflexivity|]. split; [reflexivity|]. split.
  - intros i d Hi. apply list_lookup_fmap_Some in Hi as (k & -> & Hk).
    apply lookup_seq in Hk as [-> _]. lia.
  - intros w Hw. unfold count_weekday. rewrite filter_map_length.
    rewrite (List.filter_ext _ (fun k : nat => (weekday now + Z.of_nat k) mod 7 =? w)).
    + apply two_of_each_weekday; [|exact Hw].
      unfold weekday. apply Z.mod_pos_bound. lia.
    + intros k. now rewrite weekday_shift.
Qed.

End OfferedDates.

(** ** Registration and the main menu *)

Section Registration.

Lemma ids_below_next (us : gmap Z User) k u :
  us !! k = Some u -> id u < next_user_id us.
Proof.
  unfold next_user_id. revert k u.
  apply (map_fold_weak_ind
           (fun r (m : gmap Z User) => forall k u, m !! k = Some u -> id u < 1 + r)).
  - intros k u Hk. rewrite lookup_empty in Hk. discriminate.
  - intros i x m r Hi IH k u Hk.
    destruct (decide (i = k)) as [->|Hne].
    + rewrite lookup_insert_eq in Hk. injection Hk as ->. lia.
    + rewrite lookup_insert_ne in Hk by exact Hne. specialize (IH k u Hk). lia.
Qed.

(** [/start] registers the sender once: afterwards the users table has a
    row for the sender; a sender who was registered keeps the row as it
    was, e-mail included; a new row has no e-mail; the rows of the other
    users and the appointments are untouched; and a second [/start]
    changes nothing more. *)
Theorem start_registers_once (db : DB) (ud ud' : UserData) (sender : Z)
    (name name' : str) :
  let v := start db ud sender name in
  is_Some (users (v_db v) !! sender) /\
  (forall u, users db !! sender = Some u -> v_db v = db) /\
  (users db !! sender = None ->
   exists u, users (v_db v) !! sender = Some u /\ email u = None /\
             telegram_id u = sender /\ first_name u = name) /\
  (forall other, other <> sender -> users (v_db v) !! other = users db !! other) /\
  appointments (v_db v) = appointments db /\
  v_db (start (v_db v) ud' sender name') = v_db v /\
  v_next v = HANDLE_MENU.
Proof.
  cbv zeta. unfold start.
  destruct (users db !! sender) as [u|] eqn:Hu; cbn [v_db view v_next].
  - rewrite Hu. cbn [v_db view].
    split; [eauto|]. split; [reflexivity|]. split; [discriminate|].
    split; [reflexivity|]. split; [reflexivity|]. split; reflexivity.
  - cbn [set_users users appointments]. rewrite lookup_insert_eq. cbn [v_db view].
    split; [eauto|]. split; [discriminate|].
    split; [intros _; eexists; split; [reflexivity|]; cbn; tauto|].
    split; [intros other Hne; now rewrite lookup_insert_ne|].
    split; [reflexivity|]. split; reflexivity.
Qed.

(** Registration keeps the user ids unique. *)
Theorem start_keeps_ids_unique (db : DB) (ud : UserData) (sender : Z) (name : str) :
  unique_ids (users db) ->
  unique_ids (users (v_db (start db ud sender name))).
Proof.
  intros Hun. unfold start.
  destruct (users db !! sender) as [u|] eqn:Hu; cbn [v_db view]; [exact Hun|].
  cbn [set_users users]. intros k1 k2 u1 u2 H1 H2 Hid.
  destruct (decide (sender = k1)) as [<-|Hn1]; destruct (decide (sender = k2)) as [<-|Hn2];
    [reflexivity | | |].
  - rewrite lookup_insert_eq in H1. rewrite lookup_insert_ne in H2 by exact Hn2.
    injection H1 as <-. cbn in Hid. pose proof (ids_below_next _ _ _ H2). lia.
  - rewrite lookup_insert_eq in H2. rewrite lookup_insert_ne in H1 by exact Hn1.
    injection H2 as <-. cbn in Hid. pose proof (ids_below_next _ _ _ H1). lia.
  - rewrite lookup_insert_ne in H1 by exact Hn1. rewrite lookup_insert_ne in H2 by exact Hn2.
    exact (Hun k1 k2 u1 u2 H1 H2 Hid).
Qed.

Lemma start_keeps_ids_unique_witness :
  unique_ids (users db_luis) /\
  unique_ids (users (v_db (start db_luis ud_menu 1001 (py "Ana")))) /\
  users (v_db (start db_luis ud_menu 1001 (py "Ana"))) !! 1001
    = Some {| id := 3; telegram_id := 1001; first_name := py "Ana"; email := None |}.
Proof.
  assert (H0 : unique_ids (users db_luis)).
  { intros k1 k2 u1 u2 H1 H2 _. unfold db_luis in *. cbn [users] in *.
    destruct (decide (1002 = k1)) as [<-|Hn1]; destruct (decide (1002 = k2)) as [<-|Hn2];
      [reflexivity | | |];
      rewrite ?lookup_insert_ne, ?lookup_empty in * by assumption; discriminate. }
  split; [exact H0|].
  split; [exact (start_keeps_ids_unique db_luis ud_menu 1001 (py "Ana") H0)|].
  vm_compute. reflexivity.
Defined.

(** Opening the main menu and pressing "back": the FAQ and the contact
    views are resumed as such, any step of the booking flow (date, time
    or confirmation) resumes at the date selection, and everything else
    leads to the greeting and the menu; the staged date and time and the
    appointments are untouched on the way. *)
Theorem main_menu_and_back (now : date) (db : DB) (ud : UserData) (sender : Z)
    (name : str) :
  let m := render_main_menu db ud in
  let b := back_prev now (v_db m) (v_ud m) sender name in
  v_next m = HANDLE_MENU /\
  v_next b =
    match default HANDLE_MENU (ud_current_state ud) with
    | HANDLE_FAQ => HANDLE_FAQ
    | HANDLE_CONTACT => HANDLE_CONTACT
    | SCHEDULE_APPOINTMENT | SELECT_DATE | SELECT_TIME | CONFIRM_APPOINTMENT => SELECT_DATE
    | _ => HANDLE_MENU
    end /\
  ud_current_state (v_ud b) = Some (v_next b) /\
  ud_appointment_date (v_ud b) = ud_appointment_date ud /\
  ud_appointment_time (v_ud b) = ud_appointment_time ud /\
  appointments (v_db b) = appointments db /\
  (v_sent m = [SMainMenu false] <->
   default HANDLE_MENU (ud_current_state ud) = HANDLE_MENU).
Proof.
  cbv zeta. unfold render_main_menu, back_prev. cbn [v_db v_ud view].
  cbn [ud_prev_state set_current_state set_prev_state default].
  split; [reflexivity|].
  assert (Happ : appointments (v_db (start db
            (set_current_state (set_prev_state ud
               (default HANDLE_MENU (ud_current_state ud))) HANDLE_MENU) sender name))
          = appointments db).
  { unfold start. destruct (users db !! sender); reflexivity. }
  destruct (ud_current_state ud) as [[]|]; cbn [default] in *;
    repeat split; try reflexivity; try exact Happ; try discriminate.
Qed.

End Registration.

(** ** From a date button to a booking *)

Section ButtonFlow.

(** A date button leads to the time selection exactly when the date has
    an available slot; the date is staged either way, the slots shown
    are the available slots of that date, and the tables do not change. *)
Theorem select_time_lists_available (cfg : Config) (db : DB) (ud : UserData)
    (d : date) :
  let v := select_time cfg db ud d in
  v_db v = db /\
  ud_appointment_date (v_ud v) = Some d /\
  ud_appointment_time (v_ud v) = ud_appointment_time ud /\
  (v_next v = SELECT_TIME <-> get_available_slots_from_db cfg (appointments db) d <> []) /\
  (v_next v = SELECT_DATE <-> get_available_slots_from_db cfg (appointments db) d = []) /\
  (v_next v = SELECT_TIME ->
   v_sent v = [STimeSlots d (get_available_slots_from_db cfg (appointments db) d)]) /\
  select_time cfg db ud d = show_time_slots_for_date cfg db ud d.
Proof.
  cbv zeta. unfold select_time, show_time_slots_for_date.
  destruct (get_available_slots_from_db cfg (appointments db) d) as [|s rest];
    cbn; repeat split; try reflexivity; try discriminate; try congruence.
Qed.

(** The button flow end to end, for a user with an e-mail on file: a date
    button, then the button of any slot that was listed, then "confirm",
    with the table unchanged in between, books that slot: one confirmed
    30-minute appointment of that user at the start of the slot is added
    and the conversation returns to the menu. *)
Theorem button_flow_books (cfg : Config) (now : date) (db : DB) (ud : UserData)
    (sender : Z) (user : User) (d : date) (s : Slot) :
  valid_hours cfg ->
  users db !! sender = Some user -> no_email user = false ->
  In s (get_available_slots_from_db cfg (appointments db) d) ->
  let v1 := select_time cfg db ud d in
  let v2 := confirm_appointment now (v_db v1) (v_ud v1) (time_at (slot_start s)) in
  let o := save_appointment (v_db v2) (v_ud v2) sender confirm_appt in
  v_next v1 = SELECT_TIME /\ v_next v2 = CONFIRM_APPOINTMENT /\
  o_next o = HANDLE_MENU /\
  o_replies o = [RConfirmed (slot_start s)] /\
  appointments (o_db o) =
    appointments db ++ [{| user_id := id user; appointment_date := slot_start s;
                           duration_minutes := 30; status := CONFIRMED |}] /\
  users (o_db o) = users db.
Proof.
  intros Hv Hu He Hin. cbv zeta.
  assert (Hfree : is_slot_available (appointments db) (slot_start s)
                    (slot_start s + timedelta_minutes 30) = true).
  { assert (Hday : In s (daterange_slots cfg d)) by (apply available_slots_In in Hin; tauto).
    pose proof Hday as Hi. apply list_elem_of_In, list_elem_of_lookup in Hi as [i Hi].
    destruct (slot_on_grid cfg d i s Hv Hi) as (Hd & _).
    apply daterange_slots_lookup in Hi as (_ & Hend & _). rewrite <- Hend.
    apply is_slot_available_spec. rewrite Hd.
    apply available_slots_In in Hin as [_ Hno]. unfold overlaps in Hno. exact Hno. }
  unfold select_time.
  destruct (get_available_slots_from_db cfg (appointments db) d) as [|s0 rest] eqn:Hav;
    [destruct Hin|].
  cbn [v_db v_ud v_next view]. unfold confirm_appointment. cbn [v_db v_ud v_next view].
  split; [reflexivity|]. split; [reflexivity|].
  erewrite save_appointment_books with (user := user) (d := d) (t := slot_start s);
    [|exact Hu|exact He|reflexivity|reflexivity|exact Hfree].
  cbn [o_next o_replies o_db out set_appointments appointments users new_appointment].
  repeat split.
Qed.

Lemma button_flow_books_witness :
  valid_hours cfg_default /\
  In {| slot_start := two_pm + timedelta_minutes 30;
        slot_end := two_pm + timedelta_minutes 30 + timedelta_minutes 30 |}
     (get_available_slots_from_db cfg_default (appointments db_taken) friday) /\
  appointments
    (o_db (save_appointment
       (v_db (confirm_appointment friday (v_db (select_time cfg_default db_taken ud_menu friday))
                (v_ud (select_time cfg_default db_taken ud_menu friday))
                (time_at (two_pm + timedelta_minutes 30))))
       (v_ud (confirm_appointment friday (v_db (select_time cfg_default db_taken ud_menu friday))
                (v_ud (select_time cfg_default db_taken ud_menu friday))
                (time_at (two_pm + timedelta_minutes 30))))
       1001 confirm_appt))
  = appointments db_taken ++
    [{| user_id := 1; appointment_date := two_pm + timedelta_minutes 30;
        duration_minutes := 30; status := CONFIRMED |}].
Proof.
  assert (Hv : valid_hours cfg_default) by (unfold valid_hours; cbn; lia).
  assert (Hin : In {| slot_start := two_pm + timedelta_minutes 30;
        slot_end := two_pm + timedelta_minutes 30 + timedelta_minutes 30 |}
     (get_available_slots_from_db cfg_default (appointments db_taken) friday)).
  { vm_compute. do 12 right. left. reflexivity. }
  assert (Hu : users db_taken !! 1001 = Some ana) by (vm_compute; reflexivity).
  split; [exact Hv|]. split; [exact Hin|].
  pose proof (button_flow_books cfg_default friday db_taken ud_menu 1001 ana friday _
                Hv Hu eq_refl Hin) as H.
  cbv zeta in H. exact (proj1 (proj2 (proj2 (proj2 (proj2 H))))).
Defined.

(** The same flow for a user with no e-mail on file: "confirm" asks for
    the address and inserts nothing; a valid address then books the
    staged slot and is saved in the user's row, so that the user is not
    asked again. *)
Theorem button_flow_collects_email (cfg : Config) (now : date) (db : DB)
    (ud : UserData) (sender : Z) (user : User) (d : date) (s : Slot)
    (message_text : str) :
  valid_hours cfg ->
  users db !! sender = Some user -> no_email user = true ->
  In s (get_available_slots_from_db cfg (appointments db) d) ->
  valid_email (strip message_text) = true ->
  let v1 := select_time cfg db ud d in
  let v2 := confirm_appointment now (v_db v1) (v_ud v1) (time_at (slot_start s)) in
  let o1 := save_appointment (v_db v2) (v_ud v2) sender confirm_appt in
  let o2 := handle_email_input (o_db o1) (o_ud o1) sender message_text in
  o_next o1 = COLLECT_EMAIL /\ o_db o1 = db /\ ud_await_email (o_ud o1) = true /\
  o_next o2 = HANDLE_MENU /\
  o_replies o2 = [RConfirmed (slot_start s)] /\
  appointments (o_db o2) =
    appointments db ++ [{| user_id := id user; appointment_date := slot_start s;
                           duration_minutes := 30; status := CONFIRMED |}] /\
  (exists u, users (o_db o2) !! sender = Some u /\
             email u = Some (strip message_text) /\ no_email u = false) /\
  ud_await_email (o_ud o2) = false.
Proof.
  intros Hv Hu He Hin Hmail. cbv zeta.
  assert (Hfree : is_slot_available (appointments db) (slot_start s)
                    (slot_start s + timedelta_minutes 30) = true).
  { assert (Hday : In s (daterange_slots cfg d)) by (apply available_slots_In in Hin; tauto).
    pose proof Hday as Hi. apply list_elem_of_In, list_elem_of_lookup in Hi as [i Hi].
    destruct (slot_on_grid cfg d i s Hv Hi) as (Hd & _).
    apply daterange_slots_lookup in Hi as (_ & Hend & _). rewrite <- Hend.
    apply is_slot_available_spec. rewrite Hd.
    apply available_slots_In in Hin as [_ Hno]. unfold overlaps in Hno. exact Hno. }
  unfold select_time.
  destruct (get_available_slots_from_db cfg (appointments db) d) as [|s0 rest] eqn:Hav;
    [destruct Hin|].
  cbn [v_db v_ud v_next view]. unfold confirm_appointment. cbn [v_db v_ud v_next view].
  unfold save_appointment.
  cbn [ud_appointment_date ud_appointment_time set_current_state set_appointment_time
       set_appointment_date].
  rewrite Hu, He. cbn [o_db o_ud o_next out ud_await_email set_await_email].
  split; [reflexivity|]. split; [reflexivity|]. split; [reflexivity|].
  unfold handle_email_input. rewrite Hmail, Hu. cbn [negb].
  cbn [ud_appointment_time set_await_email set_users appointments set_current_state
       set_appointment_time set_appointment_date].
  rewrite Hfree. cbn [negb o_db o_ud o_next o_replies out set_appointments appointments
                       users ud_await_email set_await_email new_appointment with_email id].
  split; [reflexivity|]. split; [reflexivity|]. split; [reflexivity|].
  split; [|reflexivity].
  eexists. split; [apply lookup_insert_eq|]. cbn [email].
  split; [reflexivity|]. unfold no_email. cbn [email].
  destruct (strip message_text) as [|c e] eqn:Hs; [|reflexivity].
  unfold valid_email in Hmail. discriminate Hmail.
Qed.

Lemma button_flow_collects_email_witness :
  valid_hours cfg_default /\
  no_email luis = true /\
  valid_email (strip (py "luis@example.com")) = true /\
  o_next (handle_email_input
    (o_db (save_appointment db_taken
       (v_ud (confirm_appointment friday db_taken
                (v_ud (select_time cfg_default db_taken ud_menu friday))
                (time_at (two_pm + timedelta_minutes 30)))) 1002 confirm_appt))
    (o_ud (save_appointment db_taken
       (v_ud (confirm_appointment friday db_taken
                (v_ud (select_time cfg_default db_taken ud_menu friday))
                (time_at (two_pm + timedelta_minutes 30)))) 1002 confirm_appt))
    1002 (py "luis@example.com")) = HANDLE_MENU.
Proof.
  assert (Hv : valid_hours cfg_default) by (unfold valid_hours; cbn; lia).
  assert (Hin : In {| slot_start := two_pm + timedelta_minutes 30;
        slot_end := two_pm + timedelta_minutes 30 + timedelta_minutes 30 |}
     (get_available_slots_from_db cfg_default (appointments db_taken) friday)).
  { vm_compute. do 12 right. left. reflexivity. }
  assert (Hu : users db_taken !! 1002 = Some luis) by (vm_compute; reflexivity).
  assert (Hm : valid_email (strip (py "luis@example.com")) = true) by (vm_compute; reflexivity).
  split; [exact Hv|]. split; [reflexivity|]. split; [exact Hm|].
  pose proof (button_flow_collects_email cfg_default friday db_taken ud_menu 1002 luis
                friday _ (py "luis@example.com") Hv Hu eq_refl Hin Hm) as H.
  cbv zeta in H. exact (proj1 (proj2 (proj2 (proj2 H)))).
Defined.

End ButtonFlow.
